(** * json_to_csv: a shallow embedding of [src/json_to_csv.py]

    The script reads the JSON files named on its command line, merges what
    they contain, asks for a file name and writes a CSV file through the
    polars library.  Everything the script itself decides is embedded here as
    executable definitions: the extension check, the path construction
    ([os.path.join], [os.path.expanduser]), the loading loop with its
    [isinstance] test, the prompt, the top-level [try]/[except] and the exit
    status.  What belongs to polars is an interface ([Polars]) the script is
    parametric in.

    Python's [str] is a sequence of Unicode code points, so a string is a
    list of code points here. *)

From Stdlib Require Import String Ascii ZArith NArith Lia DecimalString.
From stdpp Require Import gmap list.

Local Open Scope Z_scope.
#[local] Set Warnings "-register-all".
#[local] Set Warnings "-notation-overridden".
#[local] Set Warnings "-ambiguous-paths".

(** ** Python strings *)

Module Str.

Abbreviation str := (list N).

(** A literal of the source, as code points. *)
Definition lit (s : string) : str :=
  List.map N_of_ascii (list_ascii_of_string s).

(** [s.startswith(prefix)] *)
Definition startswith (s pre : str) : bool :=
  bool_decide (take (length pre) s = pre).

(** [s.endswith(suffix)]: the last [len(suffix)] characters of [s] are
    [suffix], which asks [s] to be at least that long. *)
Definition endswith (s suf : str) : bool :=
  (length suf <=? length s)%nat
  && bool_decide (drop (length s - length suf) s = suf).

(** [str.isspace] of one character, CPython's [_PyUnicode_IsWhitespace]. *)
Definition isspace (c : N) : bool :=
  ((9 <=? c) && (c <=? 13) || (28 <=? c) && (c <=? 32)
   || (c =? 133) || (c =? 160) || (c =? 5760)
   || (8192 <=? c) && (c <=? 8202)
   || (c =? 8232) || (c =? 8233) || (c =? 8239) || (c =? 8287)
   || (c =? 12288))%N.

(** [s.lstrip(...)], [s.rstrip(...)], [s.strip(...)], over the set of
    characters [drop_it]. *)
Fixpoint lstrip_by (drop_it : N -> bool) (s : str) : str :=
  match s with
  | [] => []
  | c :: t => if drop_it c then lstrip_by drop_it t else s
  end.

Definition rstrip_by (drop_it : N -> bool) (s : str) : str :=
  rev (lstrip_by drop_it (rev s)).

Definition strip (s : str) : str := rstrip_by isspace (lstrip_by isspace s).

(** [s.find(c, start)] for a one-character [c]: the first index at or
    after [start] that holds [c]. *)
Fixpoint find_from (c : N) (start : nat) (s : str) : option nat :=
  match s with
  | [] => None
  | x :: t =>
      match start with
      | O => if (x =? c)%N then Some O else S <$> find_from c O t
      | S k => S <$> find_from c k t
      end
  end.

(** [str(n)] for an integer. *)
Definition of_Z (z : Z) : str :=
  match z with
  | Z0 => lit "0"
  | Zpos p => lit (NilEmpty.string_of_uint (Pos.to_uint p))
  | Zneg p => lit "-" ++ lit (NilEmpty.string_of_uint (Pos.to_uint p))
  end.

(** [sep.join(parts)] *)
Fixpoint join_with (sep : str) (parts : list str) : str :=
  match parts with
  | [] => []
  | [p] => p
  | p :: rest => p ++ sep ++ join_with sep rest
  end.

End Str.
Import Str.

(** ** Exceptions *)

Inductive exc_class :=
| FileNotFoundError | ValueError | EOFError | OSError | LibraryError.

(** An exception of class [Exception]: its class and [str(e)]. *)
Record exn := mkExn { exc_type : exc_class; exc_msg : str }.

(** ** [os.path] on POSIX: [posixpath.join], [expanduser], [isabs] *)

Module PosixPath.

Definition sep : N := 47.    (* "/" *)
Definition tilde : N := 126. (* "~" *)

(** What [expanduser] consults: [os.environ.get("HOME")], the home
    directory of the current uid in the password database, the home
    directory of a named user, and the names [pwd.getpwnam] cannot even
    encode for the system (it then raises the given exception, a
    [UnicodeEncodeError]). *)
Record os_env := {
  environ_HOME : option str;
  pw_dir_of_uid : option str;
  pw_dir_of_name : str -> option str;
  pw_name_unencodable : str -> option exn
}.

(** [os.path.join(a, b)]: an absolute [b] replaces [a]; otherwise [b] is
    appended, after a separator unless [a] is empty or ends with one. *)
Definition join (a b : str) : str :=
  if startswith b [sep] then b
  else if bool_decide (a = []) || endswith a [sep] then a ++ b
  else a ++ [sep] ++ b.

Definition isabs (p : str) : bool := startswith p [sep].

(** [os.path.expanduser(path)], the path it returns: a path that does not
    start with "~" is returned as it is; "~" alone names the current
    user's home, "~name" that of [name]; an unknown home leaves the path
    unchanged.  When the call raises instead is [expanduser_error]
    below. *)
Definition current_home (env : os_env) : option str :=
  match environ_HOME env with
  | Some h => Some h
  | None => pw_dir_of_uid env
  end.

Definition expanduser (env : os_env) (path : str) : str :=
  if negb (startswith path [tilde]) then path
  else
    let i := match find_from sep 1 path with
             | Some i => i
             | None => length path
             end in
    let userhome :=
      if (i =? 1)%nat then current_home env
      else pw_dir_of_name env (take (i - 1) (drop 1 path)) in
    match userhome with
    | None => path
    | Some h =>
        match rstrip_by (N.eqb sep) h ++ drop i path with
        | [] => [sep]
        | r => r
        end
    end.

(** Where the "~" or "~name" at the start of a path ends. *)
Definition tilde_end (path : str) : nat :=
  match find_from sep 1 path with
  | Some i => i
  | None => length path
  end.

(** The home directory [expanduser] finds for a path that starts with a
    tilde. *)
Definition userhome_for (env : os_env) (path : str) : option str :=
  if (tilde_end path =? 1)%nat then current_home env
  else pw_dir_of_name env (take (tilde_end path - 1) (drop 1 path)).

(** [pwd.getpwnam(name)] raises, before any lookup, for a name it cannot
    encode or that holds a NUL character; only [KeyError] (an unknown
    name) is caught by [expanduser]. *)
Definition getpwnam_error (env : os_env) (name : str) : option exn :=
  match pw_name_unencodable env name with
  | Some e => Some e
  | None =>
      if existsb (N.eqb 0) name
      then Some (mkExn ValueError (lit "embedded null byte"))
      else None
  end.

(** The exception [os.path.expanduser(path)] raises, if it does: only a
    "~name" path reaches [pwd.getpwnam]. *)
Definition expanduser_error (env : os_env) (path : str) : option exn :=
  if negb (startswith path [tilde]) then None
  else if (tilde_end path =? 1)%nat then None
  else getpwnam_error env (take (tilde_end path - 1) (drop 1 path)).

(** The call [os.path.expanduser(path)]: it raises or returns. *)
Definition os_path_expanduser (env : os_env) (path : str) : exn + str :=
  match expanduser_error env path with
  | Some e => inl e
  | None => inr (expanduser env path)
  end.

End PosixPath.
Import PosixPath.

(** ** The world and the monad of the script *)

(** What a path names: a file with its text, or something that exists but
    that [open(path, 'r')] refuses (a directory, a file without read
    permission) with the given exception. *)
Inductive node :=
| File (content : str)
| NoOpen (e : exn).

Record world := mkWorld {
  sys_argv : list str;
  fs : gmap (list N) node;
  (** creating or truncating a file at a path can be refused by the system *)
  fs_refuses : str -> option exn;
  os_environ : os_env;
  (** the lines still to be read from standard input *)
  stdin : list str;
  (** what was written to standard output, oldest first *)
  stdout : list str
}.

Definition with_fs (w : world) (m : gmap (list N) node) : world :=
  mkWorld (sys_argv w) m (fs_refuses w) (os_environ w) (stdin w) (stdout w).
Definition with_stdin (w : world) (l : list str) : world :=
  mkWorld (sys_argv w) (fs w) (fs_refuses w) (os_environ w) l (stdout w).
Definition with_stdout (w : world) (l : list str) : world :=
  mkWorld (sys_argv w) (fs w) (fs_refuses w) (os_environ w) (stdin w) l.

(** How a piece of the script ends: with a value, with a raised exception,
    or with [SystemExit] (which is not an [Exception]). *)
Inductive outcome (A : Type) :=
| Ret (a : A)
| Raise (e : exn)
| SysExit (code : Z).
Arguments Ret {A} a.
Arguments Raise {A} e.
Arguments SysExit {A} code.

Definition M (A : Type) : Type := world -> outcome A * world.

Definition ret {A} (a : A) : M A := fun w => (Ret a, w).
Definition raise {A} (e : exn) : M A := fun w => (Raise e, w).
Definition bind {A B} (c : M A) (k : A -> M B) : M B :=
  fun w =>
    match c w with
    | (Ret a, w') => k a w'
    | (Raise e, w') => (Raise e, w')
    | (SysExit n, w') => (SysExit n, w')
    end.

Notation "'let*' x ':=' c 'in' k" := (bind c (fun x => k))
  (at level 10, x name, c at level 100, k at level 200).
Notation "c ';;' k" := (bind c (fun _ => k))
  (at level 100, k at level 200, right associativity).

(** [try: body except Exception as e: handler(e)] *)
Definition try_except {A} (body : M A) (handler : exn -> M A) : M A :=
  fun w =>
    match body w with
    | (Raise e, w') => handler e w'
    | r => r
    end.

(** [sys.exit(code)] *)
Definition sys_exit {A} (code : Z) : M A := fun w => (SysExit code, w).

(** What [print(s)] writes: [s] and a newline. *)
Definition line (s : str) : str := s ++ [10%N].

(** [print(s)] *)
Definition print (s : str) : M unit :=
  fun w => (Ret tt, with_stdout w (stdout w ++ [line s])).

(** [input(prompt)]: writes the prompt, then reads one line; at end of
    input it raises [EOFError]. *)
Definition input (prompt : str) : M str :=
  fun w =>
    let w1 := with_stdout w (stdout w ++ [prompt]) in
    match stdin w with
    | [] => (Raise (mkExn EOFError (lit "EOF when reading a line")), w1)
    | typed :: rest => (Ret typed, with_stdin w1 rest)
    end.

(** [os.path.exists(path)] *)
Definition path_exists (path : str) : M bool :=
  fun w => (Ret (bool_decide (is_Some (fs w !! path))), w).

(** [open(path, 'r')] followed by reading the whole text. *)
Definition open_read (path : str) : M str :=
  fun w =>
    match fs w !! path with
    | Some (File text) => (Ret text, w)
    | Some (NoOpen e) => (Raise e, w)
    | None =>
        (Raise (mkExn FileNotFoundError
                  (lit "[Errno 2] No such file or directory")), w)
    end.

Definition get_argv : M (list str) := fun w => (Ret (sys_argv w), w).
Definition get_env : M os_env := fun w => (Ret (os_environ w), w).

(** The process exit status: 0 when [main] returns, the code of
    [SystemExit], 1 for an exception that reaches the top. *)
Definition exit_status {A} (o : outcome A) : Z :=
  match o with
  | Ret _ => 0
  | SysExit code => code
  | Raise _ => 1
  end.

(** A piece of the script that never ends with [SystemExit]. *)
Definition never_exits {A} (c : M A) : Prop :=
  forall (w : world) (n : Z), fst (c w) <> SysExit n.

(** ** Python values and the polars interface *)

(** The values the script handles.  [isinstance(v, list)] holds for
    [PyList] only: a polars [DataFrame] is not a [list]. *)
Inductive pyobj (DF : Type) : Type :=
| PyNone
| PyBool (b : bool)
| PyInt (z : Z)
| PyStr (s : str)
| PyList (items : list (pyobj DF))
| PyDict (items : list (str * pyobj DF))
| PyDataFrame (df : DF).
Arguments PyNone {DF}.
Arguments PyBool {DF} b.
Arguments PyInt {DF} z.
Arguments PyStr {DF} s.
Arguments PyList {DF} items.
Arguments PyDict {DF} items.
Arguments PyDataFrame {DF} df.

(** What [df.write_csv(path)] does once the file could be opened: it
    writes the whole text, or fails and leaves something (or nothing)
    behind at the path. *)
Inductive csv_result :=
| CsvOk (text : str)
| CsvFail (e : exn) (left_behind : option str).

(** The four polars entry points the script calls.  Their results are the
    library's business; their types are what the script relies on:
    [pl.read_json] returns a [DataFrame] (or raises). *)
Class Polars := {
  DataFrame : Type;
  (** [pl.read_json(file)], from the text of the file *)
  read_json : str -> exn + DataFrame;
  (** [pl.DataFrame(data)] *)
  pl_DataFrame : list (pyobj DataFrame) -> exn + DataFrame;
  (** [df.select(pl.all().shrink_dtype())] *)
  select_all_shrink_dtype : DataFrame -> exn + DataFrame;
  (** the text [df.write_csv(path, separator=",")] produces *)
  csv_of : DataFrame -> csv_result
}.

(** ** The script *)

Abbreviation value := (pyobj DataFrame).

Section Script.

Context {P : Polars}.

Definition lift {A} (r : exn + A) : M A :=
  match r with
  | inl e => raise e
  | inr a => ret a
  end.

(** [load_data(file_path)], lines 8-21. *)
Definition load_data (file_path : str) : M value :=
  let* found := path_exists file_path in
  if negb found then
    raise (mkExn FileNotFoundError (lit "File not found: " ++ file_path))
  else
    let* text := open_read file_path in
    let* df := lift (read_json text) in
    ret (PyDataFrame df).

(** [isinstance(data, list)] *)
Definition isinstance_list (data : value) : bool :=
  match data with
  | PyList _ => true
  | _ => false
  end.

(** The elements [combined.extend(data)] appends, for a [data] that
    passed the [isinstance] test. *)
Definition list_items (data : value) : list value :=
  match data with
  | PyList items => items
  | _ => []
  end.

(** [df.write_csv(output_path, separator=",")]: the file is created or
    truncated (which the system may refuse), then written; an existing
    file is overwritten. *)
Definition write_csv (df : DataFrame) (output_path : str) : M unit :=
  fun w =>
    match fs_refuses w output_path with
    | Some e => (Raise e, w)
    | None =>
        match csv_of df with
        | CsvOk text => (Ret tt, with_fs w (<[output_path := File text]> (fs w)))
        | CsvFail e None => (Raise e, w)
        | CsvFail e (Some part) =>
            (Raise e, with_fs w (<[output_path := File part]> (fs w)))
        end
    end.

(** The check of lines 36-37. *)
Definition check_extension (filename : str) : M unit :=
  if negb (endswith filename (lit ".csv")) then
    raise (mkExn ValueError (lit "Filename must have a .csv extension."))
  else ret tt.

(** Line 40, when [expanduser] returns. *)
Definition output_path_of (env : os_env) (output_dir filename : str) : str :=
  expanduser env (join output_dir filename).

(** Lines 40-46: what the Writer does once the extension is accepted. *)
Definition build_and_write (data : list value) (filename output_dir : str)
  : M str :=
  let* env := get_env in
  let* output_path :=
    lift (os_path_expanduser env (join output_dir filename)) in
  let* df0 := lift (pl_DataFrame data) in
  let* df := lift (select_all_shrink_dtype df0) in
  write_csv df output_path ;;
  ret output_path.

(** [save_dataframe_to_csv(data, filename, output_dir)], lines 24-46. *)
Definition save_dataframe_to_csv (data : list value)
    (filename output_dir : str) : M str :=
  check_extension filename ;;
  build_and_write data filename output_dir.

Definition default_output_dir : str := lit "~/Documents".

(** The exception of line 66. *)
Definition not_a_list (file_path : str) : exn :=
  mkExn ValueError
    (lit "File " ++ file_path
     ++ lit " does not contain a list of dictionaries.").

(** The [for] loop of lines 62-67, with [combined] as it stands when the
    iteration starts. *)
Fixpoint load_all (paths : list str) (combined : list value)
  : M (list value) :=
  match paths with
  | [] => ret combined
  | file_path :: rest =>
      print (lit "Loading data from: " ++ file_path) ;;
      let* data := load_data file_path in
      if negb (isinstance_list data) then raise (not_a_list file_path)
      else load_all rest (combined ++ list_items data)
  end.

(** Lines 69-76: the prompt, the call of the Writer and the last
    message. *)
Definition prompt_and_save (combined : list value) : M unit :=
  let* typed := input (lit "Enter the filename (e.g. 'data.csv'): ") in
  let filename := strip typed in
  match filename with
  | [] => raise (mkExn ValueError (lit "Filename cannot be empty."))
  | _ =>
      let* save_path :=
        save_dataframe_to_csv combined filename default_output_dir in
      print (lit "DataFrame successfully saved to: " ++ save_path)
  end.

(** The body of the [try], lines 59-76. *)
Definition try_body (paths : list str) : M unit :=
  let* combined := load_all paths [] in
  prompt_and_save combined.

(** The [except Exception as e] branch, line 79. *)
Definition report (e : exn) : M unit :=
  print (lit "An error occurred: " ++ exc_msg e).

Definition usage : str :=
  lit "Usage: python script.py <file1.json> <file2.json> ... <file.json>".

(** [main()], lines 49-79. *)
Definition main : M unit :=
  let* argv := get_argv in
  if (length argv <? 2)%nat then
    print usage ;;
    sys_exit 1
  else
    try_except (try_body (drop 1 argv)) report.

End Script.

(** ** Column types and what [shrink_dtype] does to them

    Modelled from the polars documentation of [shrink_dtype], not from
    code of this repository: "Shrink numeric columns to the minimal
    required datatype.  Shrink to the dtype needed to fit the extrema of
    this Series."  Its example turns the integer columns [1, 2, 3] into
    i8, [-112, 2, 129] into i16, [-1, 2, 1 << 30] into i32, keeps
    [1, 2, 2 << 32] at i64, turns the float column [0.1, 1.32, 0.12] into
    f32 and leaves the string and boolean columns as they are.  An integer
    column goes to the narrowest type of its own signedness that holds its
    smallest and largest value; a float column goes to 32 bits whatever it
    holds. *)

Module Shrink.

Inductive width := W8 | W16 | W32 | W64.

Inductive dtype :=
| Int (w : width)
| UInt (w : width)
| Float32
| Float64
| Boolean
| Utf8
| Null.

Definition bits (w : width) : Z :=
  match w with W8 => 8 | W16 => 16 | W32 => 32 | W64 => 64 end.

Definition int_min (w : width) : Z := - 2 ^ (bits w - 1).
Definition int_max (w : width) : Z := 2 ^ (bits w - 1) - 1.
Definition uint_max (w : width) : Z := 2 ^ bits w - 1.

(** The integer type of a signedness and a width. *)
Definition int_type (signed : bool) (w : width) : dtype :=
  if signed then Int w else UInt w.

(** The values a type holds exactly, for the integer types. *)
Definition holds (t : dtype) (v : Z) : bool :=
  match t with
  | Int w => (int_min w <=? v) && (v <=? int_max w)
  | UInt w => (0 <=? v) && (v <=? uint_max w)
  | _ => false
  end.

(** A binary floating-point value [m * 2 ^ e], as the pair [(m, e)]. *)
Definition float_value : Type := Z * Z.

(** The odd part of a positive number and the number of factors two
    removed. *)
Fixpoint odd_part (p : positive) : positive * Z :=
  match p with
  | xO q => let (o, k) := odd_part q in (o, k + 1)
  | _ => (p, 0)
  end.

(** A value a 32-bit float holds exactly: 24 significant bits, no bit
    below 2^-149, magnitude below 2^128. *)
Definition exact_in_float32 (v : float_value) : bool :=
  match fst v with
  | Z0 => true
  | Zpos p | Zneg p =>
      let (o, k) := odd_part p in
      (Zpos o <? 2 ^ 24) && (-149 <=? snd v + k)
      && (snd v + k + Z.log2 (Zpos o) <=? 127)
  end.

(** A column: its type and its values, [None] for a null. *)
Inductive column :=
| IntCol (signed : bool) (w : width) (vals : list (option Z))
| FloatCol (double : bool) (vals : list (option float_value))
| OtherCol (t : dtype).

Definition dtype_of (c : column) : dtype :=
  match c with
  | IntCol true w _ => Int w
  | IntCol false w _ => UInt w
  | FloatCol true _ => Float64
  | FloatCol false _ => Float32
  | OtherCol t => t
  end.

(** The values that are not null. *)
Definition present {A} (vals : list (option A)) : list A := omap id vals.

(** The extrema of a column; a column without values counts as 0. *)
Definition col_min (vals : list (option Z)) : Z :=
  match present vals with
  | [] => 0
  | x :: t => foldr Z.min x t
  end.
Definition col_max (vals : list (option Z)) : Z :=
  match present vals with
  | [] => 0
  | x :: t => foldr Z.max x t
  end.

Definition narrow_signed (lo hi : Z) (w : width) : width :=
  if holds (Int W8) lo && holds (Int W8) hi then W8
  else if holds (Int W16) lo && holds (Int W16) hi then W16
  else if holds (Int W32) lo && holds (Int W32) hi then W32
  else w.

Definition narrow_unsigned (hi : Z) (w : width) : width :=
  if hi <=? uint_max W8 then W8
  else if hi <=? uint_max W16 then W16
  else if hi <=? uint_max W32 then W32
  else w.

(** The type [shrink_dtype] casts a column to. *)
Definition shrunk_dtype (c : column) : dtype :=
  match c with
  | IntCol true w vals => Int (narrow_signed (col_min vals) (col_max vals) w)
  | IntCol false w vals => UInt (narrow_unsigned (col_max vals) w)
  | FloatCol _ _ => Float32
  | OtherCol t => t
  end.

(** Every value of an integer column is one its type holds. *)
Definition well_typed (c : column) : Prop :=
  match c with
  | IntCol _ _ vals => forall v, In v (present vals) -> holds (dtype_of c) v = true
  | _ => True
  end.

End Shrink.

(** ** A small polars, and sample runs

    The theorems below hold for every [Polars].  To run the script on
    concrete inputs one instance is enough: frames are a header and rows of
    scalar cells, [pl.read_json] is given by the finite list of texts it
    accepts (with the frame each parses to), and the CSV text is the header
    line followed by one line per row. *)

Module Sample.

Inductive cell := CNull | CBool (b : bool) | CInt (z : Z) | CStr (s : str).

Record frame := mkFrame { columns : list str; rows : list (list cell) }.

Definition library_error (msg : string) : exn := mkExn LibraryError (lit msg).

Fixpoint assoc {A} (k : str) (l : list (str * A)) : option A :=
  match l with
  | [] => None
  | (k', v) :: t => if bool_decide (k = k') then Some v else assoc k t
  end.

Definition parse_with (known : list (str * frame)) (text : str)
  : exn + frame :=
  match assoc text known with
  | Some f => inr f
  | None => inl (library_error "could not parse JSON")
  end.

Definition cell_of {DF} (v : pyobj DF) : option cell :=
  match v with
  | PyNone => Some CNull
  | PyBool b => Some (CBool b)
  | PyInt z => Some (CInt z)
  | PyStr s => Some (CStr s)
  | _ => None
  end.

(** The keys of the records, in order of first appearance. *)
Fixpoint add_keys {A} (seen : list str) (kv : list (str * A)) : list str :=
  match kv with
  | [] => seen
  | (k, _) :: t =>
      add_keys (if bool_decide (k ∈ seen) then seen else seen ++ [k]) t
  end.

Fixpoint all_keys {DF} (seen : list str) (data : list (pyobj DF))
  : option (list str) :=
  match data with
  | [] => Some seen
  | PyDict kv :: t => all_keys (add_keys seen kv) t
  | _ :: _ => None
  end.

Definition row_of {DF} (cols : list str) (v : pyobj DF)
  : option (list cell) :=
  match v with
  | PyDict kv =>
      mapM (fun c => match assoc c kv with
                     | None => Some CNull
                     | Some x => cell_of x
                     end) cols
  | _ => None
  end.

(** A list of records gives one column per key; a list of scalars gives
    the single column "column_0"; this small instance refuses the rest. *)
Definition frame_of {DF} (data : list (pyobj DF)) : exn + frame :=
  match data, mapM cell_of data with
  | _ :: _, Some cells =>
      inr (mkFrame [lit "column_0"] (List.map (fun c => [c]) cells))
  | _, _ =>
      match all_keys [] data with
      | None => inl (library_error "rows must be records")
      | Some cols =>
          match mapM (row_of cols) data with
          | None => inl (library_error "unsupported value")
          | Some rs => inr (mkFrame cols rs)
          end
      end
  end.

Definition dquote : N := 34.

Definition needs_quotes (s : str) : bool :=
  existsb (fun c => (c =? 44) || (c =? dquote) || (c =? 10) || (c =? 13))%N s.

Definition field (s : str) : str :=
  if needs_quotes s then
    [dquote] ++ concat (List.map (fun c => if (c =? dquote)%N
                                           then [dquote; dquote] else [c]) s)
    ++ [dquote]
  else s.

Definition render (c : cell) : str :=
  match c with
  | CNull => []
  | CBool true => lit "true"
  | CBool false => lit "false"
  | CInt z => of_Z z
  | CStr s => field s
  end.

Definition csv_line (fields : list str) : str :=
  join_with (lit ",") fields ++ [10%N].

Definition csv_text (f : frame) : str :=
  csv_line (List.map field (columns f))
  ++ concat (List.map (fun r => csv_line (List.map render r)) (rows f)).

Definition polars (known : list (str * frame)) : Polars := {|
  DataFrame := frame;
  read_json := parse_with known;
  pl_DataFrame := frame_of;
  select_all_shrink_dtype := fun f => inr f;
  csv_of := fun f => CsvOk (csv_text f)
|}.

(** The two files of the spec's example. *)
Definition quoted (s : str) : str := [dquote] ++ s ++ [dquote].

(** [[{"x":1,"y":"a"}]] and [[{"x":2,"y":"b"}]] *)
Definition text_a : str :=
  lit "[{" ++ quoted (lit "x") ++ lit ":1," ++ quoted (lit "y") ++ lit ":"
  ++ quoted (lit "a") ++ lit "}]".
Definition text_b : str :=
  lit "[{" ++ quoted (lit "x") ++ lit ":2," ++ quoted (lit "y") ++ lit ":"
  ++ quoted (lit "b") ++ lit "}]".

Definition frame_a : frame :=
  mkFrame [lit "x"; lit "y"] [[CInt 1; CStr (lit "a")]].
Definition frame_b : frame :=
  mkFrame [lit "x"; lit "y"] [[CInt 2; CStr (lit "b")]].

Definition pl : Polars := polars [(text_a, frame_a); (text_b, frame_b)].

(** The records the two files hold, as Python values. *)
Definition record_a : pyobj frame :=
  PyDict [(lit "x", PyInt 1); (lit "y", PyStr (lit "a"))].
Definition record_b : pyobj frame :=
  PyDict [(lit "x", PyInt 2); (lit "y", PyStr (lit "b"))].

Definition env_u : os_env := {|
  environ_HOME := Some (lit "/home/u");
  pw_dir_of_uid := Some (lit "/home/u");
  pw_dir_of_name := fun _ => None;
  pw_name_unencodable := fun _ => None
|}.

Definition is_a_directory : exn :=
  mkExn OSError (lit "[Errno 21] Is a directory: 'docs'").

Definition disk : gmap (list N) node :=
  <[lit "a.json" := File text_a]>
    (<[lit "b.json" := File text_b]>
       (<[lit "docs" := NoOpen is_a_directory]> ∅)).

Definition run_with (args : list str) (typed : list str) : world := {|
  sys_argv := lit "json_to_csv.py" :: args;
  fs := disk;
  fs_refuses := fun _ => None;
  os_environ := env_u;
  stdin := typed;
  stdout := []
|}.

(** [a.json b.json], then [out.csv] typed at the prompt. *)
Definition w_example : world :=
  run_with [lit "a.json"; lit "b.json"] [lit "out.csv"].
(** One valid file. *)
Definition w_one : world := run_with [lit "a.json"] [lit "out.csv"].
(** A missing file first. *)
Definition w_missing_first : world :=
  run_with [lit "missing.json"; lit "a.json"] [lit "out.csv"].
(** A directory first, a missing file second. *)
Definition w_missing_second : world :=
  run_with [lit "docs"; lit "missing.json"] [lit "out.csv"].
(** No argument. *)
Definition w_no_args : world := run_with [] [].
(** Only blanks typed at the prompt. *)
Definition w_blank : world := run_with [lit "a.json"] [lit "   "].

End Sample.


(** * Properties *)

(** ** Strings and paths *)

(** Replaces the literals of the goal by their code points. *)
Ltac norm_lit :=
  repeat match goal with
         | |- context [lit ?s] =>
             let v := eval vm_compute in (lit s) in change (lit s) with v
         end.

Section StringFacts.

Lemma endswith_true_iff (s suf : str) :
  endswith s suf = true <-> exists stem, s = stem ++ suf.
Proof.
  unfold endswith. rewrite andb_true_iff, bool_decide_eq_true, Nat.leb_le.
  split.
  - intros [_ Hdrop].
    exists (take (length s - length suf) s).
    pose proof (take_drop (length s - length suf) s) as E.
    rewrite Hdrop in E. symmetry. exact E.
  - intros [stem ->]. rewrite length_app. split; [lia|].
    replace (length stem + length suf - length suf)%nat
      with (length stem) by lia.
    apply drop_app_length.
Qed.

Lemma endswith_false_iff (s suf : str) :
  endswith s suf = false <-> ~ exists stem, s = stem ++ suf.
Proof.
  rewrite <- endswith_true_iff. destruct (endswith s suf); split; try easy.
Qed.

Lemma startswith_cons_singleton (c x : N) (t : str) :
  startswith (x :: t) [c] = bool_decide (x = c).
Proof.
  unfold startswith. cbn. rewrite take_0.
  apply bool_decide_ext. split; congruence.
Qed.

(** What [lstrip] returns is the end of its argument. *)
Lemma lstrip_by_suffix (f : N -> bool) (s : str) :
  exists dropped, s = dropped ++ lstrip_by f s.
Proof.
  induction s as [|c t [d IH]]; cbn.
  - exists []. reflexivity.
  - destruct (f c).
    + exists (c :: d). cbn. congruence.
    + exists []. reflexivity.
Qed.

(** What [rstrip] returns is the beginning of its argument. *)
Lemma rstrip_by_prefix (f : N -> bool) (s : str) :
  exists dropped, s = rstrip_by f s ++ dropped.
Proof.
  unfold rstrip_by.
  destruct (lstrip_by_suffix f (rev s)) as [d Hd].
  exists (rev d).
  rewrite <- rev_app_distr, <- Hd. symmetry. apply rev_involutive.
Qed.

(** Stripping an absolute path on the right leaves nothing or an
    absolute path. *)
Lemma rstrip_by_isabs (f : N -> bool) (h : str) :
  isabs h = true ->
  rstrip_by f h = [] \/ isabs (rstrip_by f h) = true.
Proof.
  intros Habs.
  destruct (rstrip_by_prefix f h) as [d Hd].
  destruct (rstrip_by f h) as [|x r]; [left; reflexivity|right].
  rewrite Hd in Habs. unfold isabs in *. cbn in Habs.
  rewrite startswith_cons_singleton in *. exact Habs.
Qed.

Lemma isabs_app (a b : str) : isabs a = true -> isabs (a ++ b) = true.
Proof.
  destruct a as [|x a]; [discriminate|].
  unfold isabs. cbn [app]. now rewrite !startswith_cons_singleton.
Qed.

(** A path that is absolute already is left alone by [expanduser]. *)
Lemma expanduser_isabs (env : os_env) (path : str) :
  isabs path = true -> expanduser env path = path.
Proof.
  destruct path as [|x t]; [discriminate|].
  unfold isabs, expanduser. rewrite !startswith_cons_singleton.
  intros Hx%bool_decide_eq_true. subst x. reflexivity.
Qed.

Lemma join_absolute (a b : str) : isabs b = true -> join a b = b.
Proof. unfold isabs, join. now intros ->. Qed.

Lemma join_default_relative (b : str) :
  isabs b = false ->
  join (lit "~/Documents") b = lit "~/Documents/" ++ b.
Proof.
  unfold isabs, join. intros ->. norm_lit.
  change (bool_decide _ || endswith _ [sep]) with false. reflexivity.
Qed.

(** Under the default directory the target is [<home>/Documents/<name>],
    with the trailing separators of the home directory removed. *)
Lemma expanduser_default (env : os_env) (h b : str) :
  current_home env = Some h ->
  expanduser env (lit "~/Documents/" ++ b)
  = rstrip_by (N.eqb sep) h ++ lit "/Documents/" ++ b.
Proof.
  intros Hh. unfold expanduser. norm_lit. cbn [app].
  rewrite startswith_cons_singleton.
  change (bool_decide (126%N = tilde)) with true.
  cbn [negb find_from fmap option_fmap option_map].
  change (47 =? sep)%N with true.
  cbn [fmap option_fmap option_map Nat.eqb drop].
  rewrite Hh.
  destruct (rstrip_by (N.eqb sep) h); reflexivity.
Qed.

Lemma lstrip_by_split (f : N -> bool) (s : str) :
  exists dropped,
    s = dropped ++ lstrip_by f s
    /\ forallb f dropped = true
    /\ (forall c t, lstrip_by f s = c :: t -> f c = false).
Proof.
  induction s as [|x s (d & Hs & Hd & Hhead)]; cbn [lstrip_by].
  - exists []. repeat split. discriminate.
  - destruct (f x) eqn:Hx.
    + exists (x :: d). cbn [app forallb]. rewrite Hx, Hd, <- Hs. auto.
    + exists []. repeat split. intros c t [= <- _]. exact Hx.
Qed.

Lemma forallb_rev (f : N -> bool) (s : str) :
  forallb f (rev s) = forallb f s.
Proof.
  induction s as [|x s IH]; [reflexivity|].
  cbn [rev forallb]. rewrite forallb_app, IH. cbn. rewrite andb_true_r.
  apply andb_comm.
Qed.

Lemma rstrip_by_split (f : N -> bool) (s : str) :
  exists dropped,
    s = rstrip_by f s ++ dropped
    /\ forallb f dropped = true
    /\ (forall t d, rstrip_by f s = t ++ [d] -> f d = false).
Proof.
  unfold rstrip_by.
  destruct (lstrip_by_split f (rev s)) as (d & Hs & Hd & Hhead).
  exists (rev d). split; [|split].
  - rewrite <- rev_app_distr, <- Hs. symmetry. apply rev_involutive.
  - rewrite forallb_rev. exact Hd.
  - intros t x Hx. apply (Hhead x (rev t)).
    rewrite <- (rev_involutive (lstrip_by f (rev s))), Hx, rev_app_distr.
    reflexivity.
Qed.

Lemma lstrip_by_nil_iff (f : N -> bool) (s : str) :
  lstrip_by f s = [] <-> forallb f s = true.
Proof.
  induction s as [|x s IH]; cbn [lstrip_by forallb]; [easy|].
  destruct (f x); cbn [andb]; [exact IH|easy].
Qed.

End StringFacts.

(** ** The Loader and the loop *)

Section ScriptFacts.

Context {P : Polars}.

Lemma load_data_eq (w : world) (p : str) :
  load_data p w
  = (match fs w !! p with
     | None =>
         Raise (mkExn FileNotFoundError (lit "File not found: " ++ p))
     | Some (NoOpen e) => Raise e
     | Some (File text) =>
         match read_json text with
         | inl e => Raise e
         | inr df => Ret (PyDataFrame df)
         end
     end, w).
Proof.
  unfold load_data, bind, path_exists, open_read.
  destruct (fs w !! p) as [[text|e]|] eqn:E; cbn; rewrite ?E; cbn;
    try reflexivity.
  destruct (read_json text); reflexivity.
Qed.

(** The Loader reads: it leaves the world as it found it. *)
Lemma load_data_world (w : world) (p : str) : snd (load_data p w) = w.
Proof. rewrite load_data_eq. reflexivity. Qed.

(** What the Loader returns is a [DataFrame], never a [list]. *)
Lemma load_data_returns_frame (w : world) (p : str) (v : value) :
  fst (load_data p w) = Ret v -> exists df, v = PyDataFrame df.
Proof.
  rewrite load_data_eq. cbn.
  destruct (fs w !! p) as [[text|e]|]; try discriminate.
  destruct (read_json text) as [e|df]; try discriminate.
  intros [= <-]. eauto.
Qed.

Lemma load_data_no_exit (w : world) (p : str) (n : Z) :
  fst (load_data p w) <> SysExit n.
Proof.
  rewrite load_data_eq. cbn.
  destruct (fs w !! p) as [[text|e]|]; try discriminate.
  destruct (read_json text); discriminate.
Qed.

(** The Loader's outcome depends on the file system only. *)
Lemma load_data_frame_rule (w w' : world) (p : str) :
  fs w' = fs w -> fst (load_data p w') = fst (load_data p w).
Proof. intros E. rewrite !load_data_eq. cbn. rewrite E. reflexivity. Qed.

(** One iteration of the loop: it prints its progress line and raises,
    the Loader's exception or the [ValueError] of line 66. *)
Lemma load_all_cons (w : world) (p : str) (rest : list str)
    (combined : list value) :
  load_all (p :: rest) combined w
  = (Raise (match fst (load_data p w) with
            | Raise e => e
            | _ => not_a_list p
            end),
     with_stdout w (stdout w ++ [line (lit "Loading data from: " ++ p)])).
Proof.
  cbn [load_all]. unfold bind at 1. unfold print at 1.
  set (w1 := with_stdout w _).
  assert (Hfs : fs w1 = fs w) by reflexivity.
  pose proof (load_data_frame_rule w w1 p Hfs) as Hout.
  pose proof (load_data_world w1 p) as Hw.
  pose proof (load_data_returns_frame w1 p) as Hfr.
  pose proof (load_data_no_exit w1 p) as Hne.
  unfold bind. destruct (load_data p w1) as [o w2]. cbn in *. subst w2.
  rewrite <- Hout.
  destruct o as [v|e|n].
  - destruct (Hfr v eq_refl) as [df ->]. reflexivity.
  - reflexivity.
  - now contradiction (Hne n).
Qed.

End ScriptFacts.

(** ** Nothing but [sys.exit] ends with [SystemExit] *)

Create HintDb no_exit.

Section NeverExits.

Context {P : Polars}.

Lemma never_exits_ret {A} (a : A) : never_exits (ret a).
Proof. intros w n. discriminate. Qed.

Lemma never_exits_raise {A} (e : exn) : never_exits (@raise A e).
Proof. intros w n. discriminate. Qed.

Lemma never_exits_bind {A B} (c : M A) (k : A -> M B) :
  never_exits c -> (forall a, never_exits (k a)) -> never_exits (bind c k).
Proof.
  intros Hc Hk w n. unfold bind.
  specialize (Hc w). destruct (c w) as [[a|e|m] w']; cbn in *.
  - apply Hk.
  - discriminate.
  - now contradiction (Hc m).
Qed.

Lemma never_exits_lift {A} (r : exn + A) : never_exits (lift r).
Proof. destruct r; intros w n; discriminate. Qed.

Lemma never_exits_print (s : str) : never_exits (print s).
Proof. intros w n. discriminate. Qed.

Lemma never_exits_input (s : str) : never_exits (input s).
Proof. intros w n. unfold input. destruct (stdin w); discriminate. Qed.

Lemma never_exits_get_env : never_exits get_env.
Proof. intros w n. discriminate. Qed.

Lemma never_exits_write_csv (df : DataFrame) (path : str) :
  never_exits (write_csv df path).
Proof.
  intros w n. unfold write_csv.
  destruct (fs_refuses w path); [discriminate|].
  destruct (csv_of df) as [t|e [part|]]; discriminate.
Qed.

Lemma never_exits_check_extension (filename : str) :
  never_exits (check_extension filename).
Proof.
  intros w n. unfold check_extension.
  destruct (endswith filename _); discriminate.
Qed.

Hint Resolve never_exits_ret never_exits_raise never_exits_lift
  never_exits_print never_exits_input never_exits_get_env
  never_exits_write_csv never_exits_check_extension : no_exit.

Ltac no_exit := repeat (apply never_exits_bind; [|intro]); auto with no_exit.

Lemma never_exits_save (data : list value) (filename output_dir : str) :
  never_exits (save_dataframe_to_csv data filename output_dir).
Proof. unfold save_dataframe_to_csv, build_and_write. no_exit. Qed.

Lemma never_exits_prompt_and_save (combined : list value) :
  never_exits (prompt_and_save combined).
Proof.
  unfold prompt_and_save. apply never_exits_bind; [auto with no_exit|].
  intros ln. destruct (strip ln); [auto with no_exit|].
  apply never_exits_bind; [apply never_exits_save|auto with no_exit].
Qed.

Lemma never_exits_load_data (p : str) : never_exits (load_data p).
Proof. intros w n. apply load_data_no_exit. Qed.

Lemma never_exits_load_all (paths : list str) (combined : list value) :
  never_exits (load_all paths combined).
Proof.
  revert combined. induction paths as [|p rest IH]; intros combined.
  - apply never_exits_ret.
  - cbn [load_all]. apply never_exits_bind; [auto with no_exit|intros _].
    apply never_exits_bind; [apply never_exits_load_data|intros v].
    destruct (negb (isinstance_list v)); auto with no_exit.
Qed.

Lemma never_exits_try_body (paths : list str) :
  never_exits (try_body paths).
Proof.
  unfold try_body. apply never_exits_bind.
  - apply never_exits_load_all.
  - apply never_exits_prompt_and_save.
Qed.

(** The [except Exception] branch turns every exception of a body that
    does not call [sys.exit] into a normal return. *)
Lemma try_except_report_returns (body : M unit) (w : world) :
  never_exits body -> fst (try_except body report w) = Ret tt.
Proof.
  intros Hb. unfold try_except. specialize (Hb w).
  destruct (body w) as [[[]|e|n] w']; cbn in *.
  - reflexivity.
  - reflexivity.
  - now contradiction (Hb n).
Qed.

End NeverExits.

(** ** The run of [main] *)

Lemma report_eq (e : exn) (w : world) :
  report e w
  = (Ret tt,
     with_stdout w (stdout w ++ [line (lit "An error occurred: " ++ exc_msg e)])).
Proof. reflexivity. Qed.

(** With at least one file argument, [main] is the first iteration of the
    loop followed by the [except] branch. *)
Lemma main_with_files (P : Polars) (w : world) (prog p : str)
    (rest : list str) :
  sys_argv w = prog :: p :: rest ->
  main w
  = (Ret tt,
     with_stdout w
       (stdout w
        ++ [line (lit "Loading data from: " ++ p);
            line (lit "An error occurred: "
                  ++ exc_msg (match fst (load_data p w) with
                              | Raise e => e
                              | _ => not_a_list p
                              end))])).
Proof.
  intros Hargv. unfold main, bind at 1, get_argv. rewrite Hargv.
  cbn [length Nat.ltb Nat.leb drop].
  unfold try_except, try_body, bind. rewrite load_all_cons.
  rewrite report_eq. cbn [stdout with_stdout].
  rewrite <- app_assoc. reflexivity.
Qed.

(** C2. Whenever [main] is given at least one file argument, it ends in
    the [except] branch: it prints the progress line of the first file and
    then "An error occurred: ..." with the message of an exception [e]
    that is either the one the Loader raised for that file or, when the
    file loaded, the [ValueError] "does not contain a list of
    dictionaries" (what the Loader returns never passes [isinstance(data,
    list)]).  The prompt is not shown, no line of standard input is read
    and the file system is left as it was: the Writer is not reached. *)
Theorem main_never_reaches_the_writer (P : Polars) (w : world)
    (prog p : str) (rest : list str) :
  sys_argv w = prog :: p :: rest ->
  exists e : exn,
    main w
    = (Ret tt,
       with_stdout w
         (stdout w
          ++ [line (lit "Loading data from: " ++ p);
              line (lit "An error occurred: " ++ exc_msg e)]))
    /\ (fst (load_data p w) = Raise e
        \/ (exists df, fst (load_data p w) = Ret (PyDataFrame df))
           /\ e = not_a_list p)
    /\ (forall v, fst (load_data p w) = Ret v -> isinstance_list v = false)
    /\ fs (snd (main w)) = fs w
    /\ stdin (snd (main w)) = stdin w.
Proof.
  intros Hargv. pose proof (main_with_files P w prog p rest Hargv) as Hmain.
  exists (match fst (load_data p w) with Raise e => e | _ => not_a_list p end).
  split; [exact Hmain|]. split; [|split; [|rewrite Hmain; split; reflexivity]].
  - destruct (fst (load_data p w)) as [v|e|n] eqn:E.
    + right. destruct (load_data_returns_frame w p v E) as [df ->]. eauto.
    + left. reflexivity.
    + now contradiction (load_data_no_exit w p n).
  - intros v Hv. destruct (load_data_returns_frame w p v Hv) as [df ->].
    reflexivity.
Qed.

Lemma main_never_reaches_the_writer_witness :
  exists e : exn,
    @main Sample.pl Sample.w_example
    = (Ret tt,
       with_stdout Sample.w_example
         (stdout Sample.w_example
          ++ [line (lit "Loading data from: " ++ lit "a.json");
              line (lit "An error occurred: " ++ exc_msg e)]))
    /\ (fst (@load_data Sample.pl (lit "a.json") Sample.w_example) = Raise e
        \/ (exists df, fst (@load_data Sample.pl (lit "a.json") Sample.w_example)
                       = Ret (PyDataFrame df))
           /\ e = not_a_list (lit "a.json"))
    /\ (forall v, fst (@load_data Sample.pl (lit "a.json") Sample.w_example)
                  = Ret v -> isinstance_list v = false)
    /\ fs (snd (@main Sample.pl Sample.w_example)) = fs Sample.w_example
    /\ stdin (snd (@main Sample.pl Sample.w_example)) = stdin Sample.w_example.
Proof.
  apply (main_never_reaches_the_writer Sample.pl Sample.w_example
           (lit "json_to_csv.py") (lit "a.json") [lit "b.json"]).
  reflexivity.
Defined.

(** C5. The exit status of the process is 1 when no file argument is
    given and 0 otherwise.  Without arguments [main] prints the usage line
    and exits with [SystemExit(1)], touching nothing else.  With arguments
    [main] returns normally: every exception the body raises, in the loop,
    at the prompt or in the Writer, is turned by the [except] branch into
    one printed line. *)
Theorem exit_status_of_main (P : Polars) (w : world) :
  exit_status (fst (main w))
  = (if (length (sys_argv w) <? 2)%nat then 1 else 0)
  /\ ((length (sys_argv w) < 2)%nat ->
      main w = (SysExit 1, with_stdout w (stdout w ++ [line usage])))
  /\ ((2 <= length (sys_argv w))%nat -> fst (main w) = Ret tt)
  /\ (forall (body : M unit) (e : exn) (w0 w1 : world),
        body w0 = (Raise e, w1) ->
        try_except body report w0
        = (Ret tt,
           with_stdout w1
             (stdout w1 ++ [line (lit "An error occurred: " ++ exc_msg e)])))
  /\ (forall (paths : list str) (w0 : world),
        fst (try_except (try_body paths) report w0) = Ret tt)
  /\ (forall (combined : list value) (w0 : world),
        fst (try_except (prompt_and_save combined) report w0) = Ret tt).
Proof.
  assert (Hmain : main w
                  = if (length (sys_argv w) <? 2)%nat
                    then (SysExit 1, with_stdout w (stdout w ++ [line usage]))
                    else try_except (try_body (drop 1 (sys_argv w))) report w).
  { unfold main, bind at 1, get_argv.
    destruct (length (sys_argv w) <? 2)%nat; reflexivity. }
  assert (Hbody : forall paths w0,
             fst (try_except (try_body paths) report w0) = Ret tt).
  { intros paths w0. apply try_except_report_returns, never_exits_try_body. }
  repeat split.
  - rewrite Hmain. destruct (length (sys_argv w) <? 2)%nat; [reflexivity|].
    rewrite Hbody. reflexivity.
  - intros Hlt. rewrite Hmain.
    apply Nat.ltb_lt in Hlt. rewrite Hlt. reflexivity.
  - intros Hge. rewrite Hmain.
    destruct (length (sys_argv w) <? 2)%nat eqn:E.
    + apply Nat.ltb_lt in E. lia.
    + apply Hbody.
  - intros body e w0 w1 Hb. unfold try_except. rewrite Hb. apply report_eq.
  - exact Hbody.
  - intros combined w0.
    apply try_except_report_returns, never_exits_prompt_and_save.
Qed.

(** ** The Writer *)

Lemma check_extension_eq (filename : str) (w : world) :
  check_extension filename w
  = (if endswith filename (lit ".csv") then Ret tt
     else Raise (mkExn ValueError (lit "Filename must have a .csv extension.")),
     w).
Proof.
  unfold check_extension. destruct (endswith filename _); reflexivity.
Qed.

Lemma save_dataframe_to_csv_eq (P : Polars) (data : list value)
    (filename output_dir : str) (w : world) :
  save_dataframe_to_csv data filename output_dir w
  = if endswith filename (lit ".csv")
    then build_and_write data filename output_dir w
    else (Raise (mkExn ValueError (lit "Filename must have a .csv extension.")),
          w).
Proof.
  unfold save_dataframe_to_csv, bind. rewrite check_extension_eq.
  destruct (endswith filename _); reflexivity.
Qed.

(** C6. For a file name that does not end with ".csv" the Writer raises
    the [ValueError] of line 37 and leaves the world exactly as it was: no
    path is built, no frame is built, nothing is written. *)
Theorem writer_rejects_other_extensions (P : Polars) (data : list value)
    (filename output_dir : str) (w : world) :
  endswith filename (lit ".csv") = false ->
  save_dataframe_to_csv data filename output_dir w
  = (Raise (mkExn ValueError (lit "Filename must have a .csv extension.")), w).
Proof. intros H. rewrite save_dataframe_to_csv_eq, H. reflexivity. Qed.

Lemma writer_rejects_other_extensions_witness :
  @save_dataframe_to_csv Sample.pl [Sample.record_a] (lit "data.txt")
    default_output_dir Sample.w_one
  = (Raise (mkExn ValueError (lit "Filename must have a .csv extension.")),
     Sample.w_one).
Proof.
  apply (writer_rejects_other_extensions Sample.pl [Sample.record_a]
           (lit "data.txt") default_output_dir Sample.w_one).
  reflexivity.
Defined.

(** C10. The check of the Writer raises its [ValueError] exactly for the
    file names that are not some stem followed by the four characters
    ".csv", and lets exactly the others through to the rest of the Writer.
    The comparison is by characters: ".csv" alone (an empty stem) passes,
    "data.CSV" is rejected. *)
Theorem extension_check_is_exact (P : Polars) (filename : str) (w : world) :
  (check_extension filename w
   = (Raise (mkExn ValueError (lit "Filename must have a .csv extension.")), w)
   <-> ~ exists stem, filename = stem ++ lit ".csv")
  /\ (check_extension filename w = (Ret tt, w)
      <-> exists stem, filename = stem ++ lit ".csv")
  /\ length (lit ".csv") = 4%nat
  /\ check_extension (lit ".csv") w = (Ret tt, w)
  /\ check_extension (lit "data.CSV") w
     = (Raise (mkExn ValueError (lit "Filename must have a .csv extension.")),
        w)
  /\ (forall (data : list value) (output_dir : str),
        save_dataframe_to_csv data filename output_dir w
        = if endswith filename (lit ".csv")
          then build_and_write data filename output_dir w
          else (Raise (mkExn ValueError
                         (lit "Filename must have a .csv extension.")), w)).
Proof.
  split; [|split; [|split; [|split; [|split]]]].
  - rewrite check_extension_eq, <- endswith_false_iff.
    destruct (endswith filename _); split; easy.
  - rewrite check_extension_eq, <- endswith_true_iff.
    destruct (endswith filename _); split; easy.
  - reflexivity.
  - rewrite check_extension_eq. reflexivity.
  - rewrite check_extension_eq. reflexivity.
  - intros data output_dir. apply save_dataframe_to_csv_eq.
Qed.

(** ** The prompt *)

(** C7. When the line typed at the prompt is empty once stripped, lines
    70-72 raise [ValueError("Filename cannot be empty.")] after showing the
    prompt and consuming that line; the [except] branch prints it and the
    file system is left as it was, whatever the loop has accumulated: the
    Writer is not called. *)
Theorem blank_filename_is_rejected (P : Polars) (combined : list value)
    (w : world) (typed : str) (rest : list str) :
  stdin w = typed :: rest ->
  strip typed = [] ->
  prompt_and_save combined w
  = (Raise (mkExn ValueError (lit "Filename cannot be empty.")),
     with_stdin
       (with_stdout w
          (stdout w ++ [lit "Enter the filename (e.g. 'data.csv'): "]))
       rest)
  /\ try_except (prompt_and_save combined) report w
     = (Ret tt,
        with_stdin
          (with_stdout w
             (stdout w
              ++ [lit "Enter the filename (e.g. 'data.csv'): ";
                  line (lit "An error occurred: Filename cannot be empty.")]))
          rest)
  /\ fs (snd (try_except (prompt_and_save combined) report w)) = fs w
  /\ (forall (paths : list str) (w0 : world),
        load_all paths [] w0 = (Ret combined, w) ->
        try_except (try_body paths) report w0
        = try_except (prompt_and_save combined) report w).
Proof.
  intros Hin Hblank.
  assert (Hp : prompt_and_save combined w
               = (Raise (mkExn ValueError (lit "Filename cannot be empty.")),
                  with_stdin
                    (with_stdout w
                       (stdout w
                        ++ [lit "Enter the filename (e.g. 'data.csv'): "]))
                    rest)).
  { unfold prompt_and_save, bind, input. rewrite Hin, Hblank. reflexivity. }
  assert (Ht : try_except (prompt_and_save combined) report w
     = (Ret tt,
        with_stdin
          (with_stdout w
             (stdout w
              ++ [lit "Enter the filename (e.g. 'data.csv'): ";
                  line (lit "An error occurred: Filename cannot be empty.")]))
          rest)).
  { unfold try_except. rewrite Hp, report_eq. cbn [stdout with_stdin with_stdout].
    rewrite <- app_assoc. reflexivity. }
  repeat apply conj.
  - exact Hp.
  - exact Ht.
  - rewrite Ht. reflexivity.
  - intros paths w0 Hl. unfold try_except, try_body, bind. rewrite Hl.
    reflexivity.
Qed.

Lemma blank_filename_is_rejected_witness :
  @prompt_and_save Sample.pl [] Sample.w_blank
  = (Raise (mkExn ValueError (lit "Filename cannot be empty.")),
     with_stdin
       (with_stdout Sample.w_blank
          (stdout Sample.w_blank
           ++ [lit "Enter the filename (e.g. 'data.csv'): "]))
       [])
  /\ try_except (@prompt_and_save Sample.pl []) report Sample.w_blank
     = (Ret tt,
        with_stdin
          (with_stdout Sample.w_blank
             (stdout Sample.w_blank
              ++ [lit "Enter the filename (e.g. 'data.csv'): ";
                  line (lit "An error occurred: Filename cannot be empty.")]))
          [])
  /\ fs (snd (try_except (@prompt_and_save Sample.pl []) report Sample.w_blank))
     = fs Sample.w_blank
  /\ (forall (paths : list str) (w0 : world),
        @load_all Sample.pl paths [] w0 = (Ret [], Sample.w_blank) ->
        try_except (@try_body Sample.pl paths) report w0
        = try_except (@prompt_and_save Sample.pl []) report Sample.w_blank).
Proof.
  apply (blank_filename_is_rejected Sample.pl [] Sample.w_blank (lit "   ") []).
  - reflexivity.
  - vm_compute. reflexivity.
Defined.

(** ** Failures while loading *)

(** The loop only prints: it leaves the file system and standard input as
    they were. *)
Lemma load_all_world (P : Polars) (paths : list str) (combined : list value)
    (w : world) :
  fs (snd (load_all paths combined w)) = fs w
  /\ stdin (snd (load_all paths combined w)) = stdin w.
Proof.
  destruct paths as [|p rest].
  - split; reflexivity.
  - rewrite load_all_cons. split; reflexivity.
Qed.

(** C4, as the code has it.  The Loader raises [FileNotFoundError("File
    not found: <path>")] for a path that does not exist.  When that path is
    the first argument, [main] prints its progress line and then "An error
    occurred: File not found: <path>", and the file system is unchanged;
    the same exception leaves the loop whenever an iteration starts on a
    missing path.  And whenever the loop fails, with any exception, the
    [try] body goes straight to the [except] branch: no line is read from
    standard input and the file system is unchanged. *)
Theorem missing_input_is_reported (P : Polars) (w : world) (prog p : str)
    (rest : list str) :
  sys_argv w = prog :: p :: rest ->
  fs w !! p = None ->
  load_data p w
  = (Raise (mkExn FileNotFoundError (lit "File not found: " ++ p)), w)
  /\ main w
     = (Ret tt,
        with_stdout w
          (stdout w
           ++ [line (lit "Loading data from: " ++ p);
               line (lit "An error occurred: "
                     ++ (lit "File not found: " ++ p))]))
  /\ fs (snd (main w)) = fs w
  /\ (forall (combined : list value) (more : list str) (w0 : world),
        fs w0 !! p = None ->
        load_all (p :: more) combined w0
        = (Raise (mkExn FileNotFoundError (lit "File not found: " ++ p)),
           with_stdout w0
             (stdout w0 ++ [line (lit "Loading data from: " ++ p)])))
  /\ (forall (paths : list str) (w0 w1 : world) (e : exn),
        load_all paths [] w0 = (Raise e, w1) ->
        try_except (try_body paths) report w0 = report e w1
        /\ fs (snd (try_except (try_body paths) report w0)) = fs w0
        /\ stdin (snd (try_except (try_body paths) report w0)) = stdin w0).
Proof.
  intros Hargv Hmiss.
  assert (Hload : forall w0, fs w0 !! p = None ->
            load_data p w0
            = (Raise (mkExn FileNotFoundError (lit "File not found: " ++ p)),
               w0)).
  { intros w0 H0. rewrite load_data_eq, H0. reflexivity. }
  assert (Hmain := main_with_files P w prog p rest Hargv).
  rewrite (Hload w Hmiss) in Hmain. cbn [fst exc_msg] in Hmain.
  split; [auto|]. split; [exact Hmain|]. split; [now rewrite Hmain|].
  split.
  - intros combined more w0 H0. rewrite load_all_cons, (Hload w0 H0).
    reflexivity.
  - intros paths w0 w1 e Hl.
    assert (Ht : try_except (try_body paths) report w0 = report e w1).
    { unfold try_except, try_body, bind. rewrite Hl. reflexivity. }
    destruct (load_all_world P paths [] w0) as [Hfs Hin].
    rewrite Hl in Hfs, Hin. cbn [snd] in Hfs, Hin.
    rewrite Ht, report_eq. cbn [snd fs stdin with_stdout]. auto.
Qed.

Lemma missing_input_is_reported_witness :
  @load_data Sample.pl (lit "missing.json") Sample.w_missing_first
  = (Raise (mkExn FileNotFoundError
              (lit "File not found: " ++ lit "missing.json")),
     Sample.w_missing_first)
  /\ @main Sample.pl Sample.w_missing_first
     = (Ret tt,
        with_stdout Sample.w_missing_first
          (stdout Sample.w_missing_first
           ++ [line (lit "Loading data from: " ++ lit "missing.json");
               line (lit "An error occurred: "
                     ++ (lit "File not found: " ++ lit "missing.json"))]))
  /\ fs (snd (@main Sample.pl Sample.w_missing_first))
     = fs Sample.w_missing_first
  /\ (forall (combined : list value) (more : list str) (w0 : world),
        fs w0 !! lit "missing.json" = None ->
        @load_all Sample.pl (lit "missing.json" :: more) combined w0
        = (Raise (mkExn FileNotFoundError
                    (lit "File not found: " ++ lit "missing.json")),
           with_stdout w0
             (stdout w0
              ++ [line (lit "Loading data from: " ++ lit "missing.json")])))
  /\ (forall (paths : list str) (w0 w1 : world) (e : exn),
        @load_all Sample.pl paths [] w0 = (Raise e, w1) ->
        try_except (@try_body Sample.pl paths) report w0 = report e w1
        /\ fs (snd (try_except (@try_body Sample.pl paths) report w0)) = fs w0
        /\ stdin (snd (try_except (@try_body Sample.pl paths) report w0))
           = stdin w0).
Proof.
  apply (missing_input_is_reported Sample.pl Sample.w_missing_first
           (lit "json_to_csv.py") (lit "missing.json") [lit "a.json"]).
  - reflexivity.
  - vm_compute. reflexivity.
Defined.

(** C4 as stated fails: the second argument names no file, yet the run
    stops at the first argument (a directory) and the only error printed
    is that one; "File not found" is never reported. *)
Lemma missing_second_input_not_reported :
  sys_argv Sample.w_missing_second
  = [lit "json_to_csv.py"; lit "docs"; lit "missing.json"]
  /\ fs Sample.w_missing_second !! lit "missing.json" = None
  /\ @main Sample.pl Sample.w_missing_second
     = (Ret tt,
        with_stdout Sample.w_missing_second
          [line (lit "Loading data from: docs");
           line (lit "An error occurred: [Errno 21] Is a directory: 'docs'")])
  /\ existsb (fun l => bool_decide
                (l = line (lit "An error occurred: File not found: missing.json")))
       (stdout (snd (@main Sample.pl Sample.w_missing_second))) = false.
Proof. vm_compute. repeat split. Qed.

(** ** The path the Writer returns *)

Lemma build_and_write_eq (P : Polars) (data : list value)
    (filename output_dir : str) (w : world) :
  build_and_write data filename output_dir w
  = match expanduser_error (os_environ w) (join output_dir filename) with
    | Some e => (Raise e, w)
    | None =>
        match pl_DataFrame data with
        | inl e => (Raise e, w)
        | inr df0 =>
            match select_all_shrink_dtype df0 with
            | inl e => (Raise e, w)
            | inr df =>
                match
                  write_csv df
                    (output_path_of (os_environ w) output_dir filename) w
                with
                | (Ret _, w') =>
                    (Ret (output_path_of (os_environ w) output_dir filename),
                     w')
                | (Raise e, w') => (Raise e, w')
                | (SysExit n, w') => (SysExit n, w')
                end
            end
        end
    end.
Proof.
  unfold build_and_write, bind, get_env, lift, os_path_expanduser.
  destruct (expanduser_error _ _) as [e|]; [reflexivity|]. cbn.
  destruct (pl_DataFrame data) as [e|df0]; [reflexivity|]. cbn.
  destruct (select_all_shrink_dtype df0) as [e|df]; [reflexivity|]. cbn.
  destruct (write_csv df _ w) as [[[]|e|n] w']; reflexivity.
Qed.

(** Whatever the Writer returns is the expanded join. *)
Lemma save_returns_output_path (P : Polars) (data : list value)
    (filename output_dir : str) (w w' : world) (path : str) :
  save_dataframe_to_csv data filename output_dir w = (Ret path, w') ->
  path = output_path_of (os_environ w) output_dir filename.
Proof.
  rewrite save_dataframe_to_csv_eq, build_and_write_eq.
  destruct (endswith filename _); [|discriminate].
  destruct (expanduser_error _ _) as [e|]; [discriminate|].
  destruct (pl_DataFrame data) as [e|df0]; [discriminate|].
  destruct (select_all_shrink_dtype df0) as [e|df]; [discriminate|].
  destruct (write_csv df _ w) as [[[]|e|n] w'']; try discriminate.
  now intros [= <- _].
Qed.

(** Under the default directory and an absolute home directory the target
    is absolute. *)
Lemma default_output_path_isabs (env : os_env) (h filename : str) :
  current_home env = Some h ->
  isabs h = true ->
  isabs (output_path_of env default_output_dir filename) = true.
Proof.
  intros Hh Habs. unfold output_path_of, default_output_dir.
  destruct (isabs filename) eqn:Hf.
  - rewrite (join_absolute _ _ Hf), (expanduser_isabs _ _ Hf). exact Hf.
  - rewrite (join_default_relative _ Hf), (expanduser_default _ h _ Hh).
    destruct (rstrip_by_isabs (N.eqb sep) h Habs) as [-> | Hr].
    + reflexivity.
    + now apply isabs_app.
Qed.

Lemma expanduser_no_tilde (env : os_env) (c : N) (t : str) :
  c <> tilde -> expanduser env (c :: t) = c :: t.
Proof.
  intros Hc. unfold expanduser. rewrite startswith_cons_singleton.
  rewrite bool_decide_eq_false_2 by exact Hc. reflexivity.
Qed.

(** The separator found after the tilde starts what is left of the
    path. *)
Lemma find_from_drop (c : N) (k : nat) (s : str) (i : nat) :
  find_from c k s = Some i -> exists rest, drop i s = c :: rest.
Proof.
  revert k i. induction s as [|x s IH]; intros k i; cbn [find_from];
    [discriminate|].
  destruct k as [|k].
  - destruct (x =? c)%N eqn:E.
    + intros [= <-]. apply N.eqb_eq in E. subst x. eauto.
    + destruct (find_from c 0 s) as [j|] eqn:F; [|discriminate].
      intros [= <-]. apply (IH 0%nat j F).
  - destruct (find_from c k s) as [j|] eqn:F; [|discriminate].
    intros [= <-]. apply (IH k j F).
Qed.

(** What follows the tilde part of a path is empty or starts with a
    separator. *)
Lemma drop_tilde_end (path : str) :
  drop (tilde_end path) path = []
  \/ exists rest, drop (tilde_end path) path = sep :: rest.
Proof.
  unfold tilde_end. destruct (find_from sep 1 path) as [i|] eqn:F.
  - right. apply (find_from_drop _ _ _ _ F).
  - left. apply drop_all.
Qed.

Lemma expanduser_tilde (env : os_env) (path : str) :
  startswith path [tilde] = true ->
  expanduser env path
  = match userhome_for env path with
    | None => path
    | Some h =>
        match rstrip_by (N.eqb sep) h ++ drop (tilde_end path) path with
        | [] => [sep]
        | r => r
        end
    end.
Proof. intros H. unfold expanduser. rewrite H. reflexivity. Qed.

Lemma startswith_tilde_not_abs (path : str) :
  startswith path [tilde] = true -> isabs path = false.
Proof.
  destruct path as [|x t]; [discriminate|].
  unfold isabs. rewrite !startswith_cons_singleton.
  intros ->%bool_decide_eq_true. reflexivity.
Qed.

(** Stripping the separators off the right of [h] leaves nothing exactly
    when [h] is empty or made of separators, and otherwise leaves the
    first character of [h] in place. *)
Lemma rstrip_by_head (f : N -> bool) (x : N) (t : str) :
  rstrip_by f (x :: t) = []
  \/ exists r, rstrip_by f (x :: t) = x :: r.
Proof.
  destruct (rstrip_by_prefix f (x :: t)) as [d Hd].
  destruct (rstrip_by f (x :: t)) as [|y r]; [left; reflexivity|right].
  injection Hd as -> _. eauto.
Qed.

Lemma rstrip_sep_nil_isabs (h : str) :
  h <> [] -> rstrip_by (N.eqb sep) h = [] -> isabs h = true.
Proof.
  intros Hne Hnil. destruct h as [|x t]; [contradiction|].
  unfold rstrip_by in Hnil.
  apply (f_equal (@rev N)) in Hnil. rewrite rev_involutive in Hnil.
  change (rev []) with (@nil N) in Hnil.
  apply lstrip_by_nil_iff in Hnil. rewrite forallb_rev in Hnil.
  cbn [forallb] in Hnil. apply andb_true_iff in Hnil as [Hx _].
  apply N.eqb_eq in Hx. subst x.
  unfold isabs. rewrite startswith_cons_singleton. reflexivity.
Qed.

(** When the expanded path is absolute. *)
Lemma isabs_expanduser_iff (env : os_env) (path : str) :
  isabs (expanduser env path) = true
  <-> isabs path = true
      \/ (startswith path [tilde] = true
          /\ exists h : str,
               userhome_for env path = Some h /\ (h = [] \/ isabs h = true)).
Proof.
  destruct (startswith path [tilde]) eqn:Ht.
  - rewrite (expanduser_tilde env path Ht).
    pose proof (startswith_tilde_not_abs path Ht) as Hrel.
    destruct (userhome_for env path) as [h|].
    + assert (Hres : isabs (match rstrip_by (N.eqb sep) h
                                  ++ drop (tilde_end path) path with
                            | [] => [sep]
                            | r => r
                            end) = true <-> h = [] \/ isabs h = true).
      { destruct h as [|x t].
        - split; [auto|intros _]. cbn [rstrip_by rev lstrip_by app].
          destruct (drop_tilde_end path) as [-> | [rest ->]]; reflexivity.
        - destruct (rstrip_by_head (N.eqb sep) x t) as [Hnil | [r Hr]].
          + assert (Habs := rstrip_sep_nil_isabs (x :: t) ltac:(discriminate)
                              Hnil).
            rewrite Hnil. cbn [app]. split; [auto|intros _].
            destruct (drop_tilde_end path) as [-> | [rest ->]]; reflexivity.
          + rewrite Hr. cbn [app]. unfold isabs.
            rewrite !startswith_cons_singleton.
            split; [auto|]. intros [Hnil | H]; [discriminate|exact H]. }
      rewrite Hres. split.
      * intros H. right. split; [reflexivity|]. exists h. auto.
      * intros [H | (_ & h' & [= <-] & H)]; [congruence|exact H].
    + rewrite Hrel. split; [discriminate|].
      intros [H | (_ & h & H & _)]; discriminate.
  - unfold expanduser. rewrite Ht. cbn [negb]. split; [auto|].
    intros [H | (H & _)]; [exact H|discriminate].
Qed.

(** A directory that is not empty and starts with neither a separator nor
    a tilde gives a relative target for a relative file name. *)
Lemma relative_directory_relative_path (env : os_env)
    (output_dir filename : str) :
  output_dir <> [] ->
  isabs output_dir = false ->
  startswith output_dir [tilde] = false ->
  isabs filename = false ->
  isabs (expanduser env (join output_dir filename)) = false.
Proof.
  intros Hne Hrel Htilde Hfile.
  destruct output_dir as [|c t]; [contradiction|].
  assert (Hj : exists rest, join (c :: t) filename = c :: rest).
  { unfold join. unfold isabs in Hfile. rewrite Hfile.
    destruct (bool_decide (c :: t = []) || endswith (c :: t) [sep]);
      cbn [app]; eauto. }
  destruct Hj as [rest ->].
  unfold isabs in Hrel. rewrite startswith_cons_singleton in Hrel, Htilde.
  apply bool_decide_eq_false in Htilde.
  rewrite (expanduser_no_tilde env c rest Htilde).
  unfold isabs. rewrite startswith_cons_singleton. exact Hrel.
Qed.

(** C8, as the code has it.  For a file name that ends with ".csv", when
    [expanduser] does not raise, polars builds the frame and the text and
    the system accepts the write, the Writer stores the text at
    [expanduser(join(output_dir, filename))] and returns that path; any
    path the Writer returns is that one.  The path is absolute exactly
    when the joined path is absolute, or the joined path starts with a
    tilde whose home directory is known and is empty or absolute.  So it
    is absolute under the default "~/Documents" with an absolute home
    directory, and it is relative when the directory is not empty and
    starts with neither a separator nor a tilde and the file name is
    relative. *)
Theorem writer_returns_expanded_join (P : Polars) (data : list value)
    (filename output_dir : str) (w : world) (df0 df : DataFrame)
    (text : str) :
  endswith filename (lit ".csv") = true ->
  expanduser_error (os_environ w) (join output_dir filename) = None ->
  pl_DataFrame data = inr df0 ->
  select_all_shrink_dtype df0 = inr df ->
  csv_of df = CsvOk text ->
  fs_refuses w (expanduser (os_environ w) (join output_dir filename)) = None ->
  save_dataframe_to_csv data filename output_dir w
  = (Ret (expanduser (os_environ w) (join output_dir filename)),
     with_fs w
       (<[expanduser (os_environ w) (join output_dir filename) := File text]>
          (fs w)))
  /\ (forall (w0 w1 : world) (path : str),
        save_dataframe_to_csv data filename output_dir w0 = (Ret path, w1) ->
        path = expanduser (os_environ w0) (join output_dir filename))
  /\ (isabs (expanduser (os_environ w) (join output_dir filename)) = true
      <-> isabs (join output_dir filename) = true
          \/ (startswith (join output_dir filename) [tilde] = true
              /\ exists h : str,
                   userhome_for (os_environ w) (join output_dir filename)
                   = Some h
                   /\ (h = [] \/ isabs h = true)))
  /\ (forall h : str,
        output_dir = lit "~/Documents" ->
        current_home (os_environ w) = Some h ->
        isabs h = true ->
        isabs (expanduser (os_environ w) (join output_dir filename)) = true)
  /\ (output_dir <> [] ->
      isabs output_dir = false ->
      startswith output_dir [tilde] = false ->
      isabs filename = false ->
      isabs (expanduser (os_environ w) (join output_dir filename)) = false).
Proof.
  intros Hext Hexp Hdf0 Hdf Hcsv Hok.
  split; [|split; [|split; [|split]]].
  - rewrite save_dataframe_to_csv_eq, Hext, build_and_write_eq, Hexp, Hdf0, Hdf.
    unfold write_csv, output_path_of. rewrite Hok, Hcsv. reflexivity.
  - intros w0 w1 path Hs.
    apply (save_returns_output_path P data filename output_dir w0 w1 path Hs).
  - apply isabs_expanduser_iff.
  - intros h -> Hh Habs.
    apply (default_output_path_isabs (os_environ w) h filename Hh Habs).
  - intros Hne Hrel Htilde Hfile.
    apply (relative_directory_relative_path _ _ _ Hne Hrel Htilde Hfile).
Qed.

Lemma writer_returns_expanded_join_witness :
  @save_dataframe_to_csv Sample.pl [Sample.record_a; Sample.record_b]
    (lit "out.csv") (lit "exports") Sample.w_example
  = (Ret (expanduser (os_environ Sample.w_example)
            (join (lit "exports") (lit "out.csv"))),
     with_fs Sample.w_example
       (<[expanduser (os_environ Sample.w_example)
            (join (lit "exports") (lit "out.csv"))
          := File (line (lit "x,y") ++ line (lit "1,a") ++ line (lit "2,b"))]>
          (fs Sample.w_example)))
  /\ (forall (w0 w1 : world) (path : str),
        @save_dataframe_to_csv Sample.pl [Sample.record_a; Sample.record_b]
          (lit "out.csv") (lit "exports") w0 = (Ret path, w1) ->
        path = expanduser (os_environ w0)
                 (join (lit "exports") (lit "out.csv")))
  /\ (isabs (expanduser (os_environ Sample.w_example)
               (join (lit "exports") (lit "out.csv"))) = true
      <-> isabs (join (lit "exports") (lit "out.csv")) = true
          \/ (startswith (join (lit "exports") (lit "out.csv")) [tilde] = true
              /\ exists h : str,
                   userhome_for (os_environ Sample.w_example)
                     (join (lit "exports") (lit "out.csv")) = Some h
                   /\ (h = [] \/ isabs h = true)))
  /\ (forall h : str,
        lit "exports" = lit "~/Documents" ->
        current_home (os_environ Sample.w_example) = Some h ->
        isabs h = true ->
        isabs (expanduser (os_environ Sample.w_example)
                 (join (lit "exports") (lit "out.csv"))) = true)
  /\ (lit "exports" <> [] ->
      isabs (lit "exports") = false ->
      startswith (lit "exports") [tilde] = false ->
      isabs (lit "out.csv") = false ->
      isabs (expanduser (os_environ Sample.w_example)
               (join (lit "exports") (lit "out.csv"))) = false).
Proof.
  apply (writer_returns_expanded_join Sample.pl
           [Sample.record_a; Sample.record_b] (lit "out.csv")
           (lit "exports") Sample.w_example
           (Sample.mkFrame [lit "x"; lit "y"]
              [[Sample.CInt 1; Sample.CStr (lit "a")];
               [Sample.CInt 2; Sample.CStr (lit "b")]])
           (Sample.mkFrame [lit "x"; lit "y"]
              [[Sample.CInt 1; Sample.CStr (lit "a")];
               [Sample.CInt 2; Sample.CStr (lit "b")]])
           (line (lit "x,y") ++ line (lit "1,a") ++ line (lit "2,b"))).
  - vm_compute. reflexivity.
  - vm_compute. reflexivity.
  - vm_compute. reflexivity.
  - reflexivity.
  - vm_compute. reflexivity.
  - reflexivity.
Defined.

(** C8 as stated fails: with the relative directory "out" the Writer
    succeeds and returns "out/x.csv", which is not an absolute path. *)
Lemma writer_returns_relative_path :
  fst (@save_dataframe_to_csv Sample.pl [Sample.record_a] (lit "x.csv")
         (lit "out") Sample.w_one)
  = Ret (lit "out/x.csv")
  /\ fs (snd (@save_dataframe_to_csv Sample.pl [Sample.record_a] (lit "x.csv")
                (lit "out") Sample.w_one)) !! lit "out/x.csv"
     = Some (File (line (lit "x,y") ++ line (lit "1,a")))
  /\ isabs (lit "out/x.csv") = false.
Proof. vm_compute. repeat split. Qed.

(** ** Valid inputs *)

(** C1, on the code.  When the first file exists and polars parses it, the
    run ends with "File <path> does not contain a list of dictionaries."
    and writes nothing, however many rows the files hold: no CSV is
    produced for valid input. *)
Theorem valid_input_produces_no_csv (P : Polars) (w : world) (prog p : str)
    (rest : list str) (text : str) (df : DataFrame) :
  sys_argv w = prog :: p :: rest ->
  fs w !! p = Some (File text) ->
  read_json text = inr df ->
  load_data p w = (Ret (PyDataFrame df), w)
  /\ isinstance_list (PyDataFrame df) = false
  /\ main w
     = (Ret tt,
        with_stdout w
          (stdout w
           ++ [line (lit "Loading data from: " ++ p);
               line (lit "An error occurred: "
                     ++ (lit "File " ++ p
                         ++ lit " does not contain a list of dictionaries."))]))
  /\ fs (snd (main w)) = fs w.
Proof.
  intros Hargv Hfile Hparse.
  assert (Hload : load_data p w = (Ret (PyDataFrame df), w)).
  { rewrite load_data_eq, Hfile, Hparse. reflexivity. }
  assert (Hmain := main_with_files P w prog p rest Hargv).
  rewrite Hload in Hmain. cbn [fst not_a_list exc_msg] in Hmain.
  split; [exact Hload|]. split; [reflexivity|]. split; [exact Hmain|].
  now rewrite Hmain.
Qed.

Lemma valid_input_produces_no_csv_witness :
  @load_data Sample.pl (lit "a.json") Sample.w_one
  = (Ret (PyDataFrame Sample.frame_a), Sample.w_one)
  /\ @isinstance_list Sample.pl (PyDataFrame Sample.frame_a) = false
  /\ @main Sample.pl Sample.w_one
     = (Ret tt,
        with_stdout Sample.w_one
          (stdout Sample.w_one
           ++ [line (lit "Loading data from: " ++ lit "a.json");
               line (lit "An error occurred: "
                     ++ (lit "File " ++ lit "a.json"
                         ++ lit " does not contain a list of dictionaries."))]))
  /\ fs (snd (@main Sample.pl Sample.w_one)) = fs Sample.w_one.
Proof.
  apply (valid_input_produces_no_csv Sample.pl Sample.w_one
           (lit "json_to_csv.py") (lit "a.json") [] Sample.text_a
           Sample.frame_a).
  - reflexivity.
  - vm_compute. reflexivity.
  - vm_compute. reflexivity.
Defined.

(** C3, on the code.  With a.json and b.json of the example on the command
    line and "out.csv" waiting on standard input, the run stops at a.json:
    it prints the error, never reads the file name and leaves no file at
    "/home/u/Documents/out.csv".  Given the two records directly, the
    Writer does store the three lines of the example there. *)
Theorem example_run_writes_nothing :
  @main Sample.pl Sample.w_example
  = (Ret tt,
     with_stdout Sample.w_example
       [line (lit "Loading data from: a.json");
        line (lit "An error occurred: File a.json does not contain a list of dictionaries.")])
  /\ stdin (snd (@main Sample.pl Sample.w_example)) = [lit "out.csv"]
  /\ fs (snd (@main Sample.pl Sample.w_example))
       !! lit "/home/u/Documents/out.csv" = None
  /\ fs (snd (@save_dataframe_to_csv Sample.pl
                [Sample.record_a; Sample.record_b] (lit "out.csv")
                default_output_dir Sample.w_example))
       !! lit "/home/u/Documents/out.csv"
     = Some (File (line (lit "x,y") ++ line (lit "1,a") ++ line (lit "2,b"))).
Proof. vm_compute. repeat split. Qed.

(** * Further properties of the script *)

(** ** What [strip] keeps *)

(** X1. [strip] removes a run of whitespace at each end and nothing else:
    the text is the stripped text between two runs of whitespace, and the
    stripped text neither starts nor ends with a whitespace character. *)
Theorem strip_keeps_the_core (s : str) :
  exists before after : str,
    s = before ++ strip s ++ after
    /\ forallb isspace before = true
    /\ forallb isspace after = true
    /\ (forall c t, strip s = c :: t -> isspace c = false)
    /\ (forall t d, strip s = t ++ [d] -> isspace d = false).
Proof.
  unfold strip.
  destruct (lstrip_by_split isspace s) as (b & Hs & Hb & Hhead).
  destruct (rstrip_by_split isspace (lstrip_by isspace s))
    as (a & Hr & Ha & Hlast).
  exists b, a. split; [|split; [|split; [|split]]]; auto.
  - rewrite <- Hr. exact Hs.
  - intros c t Hc. apply (Hhead c (t ++ a)). rewrite Hr at 1. rewrite Hc.
    reflexivity.
Qed.

(** X2. The stripped text is empty exactly when every character of the
    text is whitespace (the empty text included): these are the lines the
    prompt answers with "Filename cannot be empty." *)
Theorem strip_empty_iff_blank (s : str) :
  strip s = [] <-> forallb isspace s = true.
Proof.
  unfold strip, rstrip_by. split.
  - intros H. apply (f_equal (@rev N)) in H. rewrite rev_involutive in H.
    cbn in H. apply lstrip_by_nil_iff in H. rewrite forallb_rev in H.
    destruct (lstrip_by_split isspace s) as (b & Hs & Hb & _).
    rewrite Hs, forallb_app, Hb, H. reflexivity.
  - intros H. apply lstrip_by_nil_iff in H. rewrite H. reflexivity.
Qed.

(** ** The Loader *)

(** X3. The Loader returns a value exactly when the path names a file that
    can be opened and whose text [pl.read_json] accepts, and the value is
    then the frame polars built; an exception of [open] or of
    [pl.read_json] leaves the Loader as it was raised.  The Loader changes
    nothing in the world. *)
Theorem load_data_succeeds_iff (P : Polars) (w : world) (p : str) :
  (forall v : value,
      fst (load_data p w) = Ret v
      <-> exists text df,
            fs w !! p = Some (File text)
            /\ read_json text = inr df
            /\ v = PyDataFrame df)
  /\ (forall e, fs w !! p = Some (NoOpen e) -> fst (load_data p w) = Raise e)
  /\ (forall text e,
        fs w !! p = Some (File text) ->
        read_json text = inl e ->
        fst (load_data p w) = Raise e)
  /\ snd (load_data p w) = w.
Proof.
  rewrite load_data_eq. cbn [fst snd].
  split; [|split; [|split]].
  - intros v. split.
    + destruct (fs w !! p) as [[text|e]|]; try discriminate.
      destruct (read_json text) as [e|df] eqn:E; try discriminate.
      intros [= <-]. eauto.
    + intros (text & df & -> & -> & ->). reflexivity.
  - intros e ->. reflexivity.
  - intros text e -> ->. reflexivity.
  - reflexivity.
Qed.

(** ** What the Writer touches *)

Lemma write_csv_frame (P : Polars) (df : DataFrame) (path : str) (w : world) :
  (forall q, q <> path -> fs (snd (write_csv df path w)) !! q = fs w !! q)
  /\ stdin (snd (write_csv df path w)) = stdin w
  /\ stdout (snd (write_csv df path w)) = stdout w
  /\ (fst (write_csv df path w) = Ret tt ->
      exists text, csv_of df = CsvOk text
                   /\ fs (snd (write_csv df path w)) !! path = Some (File text)).
Proof.
  unfold write_csv.
  destruct (fs_refuses w path) as [e|]; [repeat split; discriminate|].
  destruct (csv_of df) as [text|e [part|]]; cbn [fst snd fs stdin stdout with_fs].
  - repeat split.
    + intros q Hq. now apply lookup_insert_ne.
    + intros _. exists text. split; [reflexivity|apply lookup_insert_eq].
  - repeat split; [|discriminate].
    intros q Hq. now apply lookup_insert_ne.
  - repeat split. discriminate.
Qed.

(** The frame rule of the Writer. *)
Lemma save_dataframe_to_csv_frame (P : Polars) (data : list value)
    (filename output_dir : str) (w : world) :
  (forall q : str,
      q <> expanduser (os_environ w) (join output_dir filename) ->
      fs (snd (save_dataframe_to_csv data filename output_dir w)) !! q
      = fs w !! q)
  /\ stdin (snd (save_dataframe_to_csv data filename output_dir w)) = stdin w
  /\ stdout (snd (save_dataframe_to_csv data filename output_dir w)) = stdout w
  /\ (forall path : str,
        fst (save_dataframe_to_csv data filename output_dir w) = Ret path ->
        path = expanduser (os_environ w) (join output_dir filename)
        /\ endswith filename (lit ".csv") = true
        /\ exists df0 df text,
             pl_DataFrame data = inr df0
             /\ select_all_shrink_dtype df0 = inr df
             /\ csv_of df = CsvOk text
             /\ fs (snd (save_dataframe_to_csv data filename output_dir w))
                  !! path = Some (File text)).
Proof.
  rewrite save_dataframe_to_csv_eq, build_and_write_eq.
  unfold output_path_of.
  destruct (endswith filename _); [|now repeat split].
  destruct (expanduser_error _ _) as [e|]; [now repeat split|].
  destruct (pl_DataFrame data) as [e|df0]; [now repeat split|].
  destruct (select_all_shrink_dtype df0) as [e|df] eqn:Hsel;
    [now repeat split|].
  destruct (write_csv_frame P df
              (expanduser (os_environ w) (join output_dir filename)) w)
    as (Hfs & Hin & Hout & Hret).
  destruct (write_csv df _ w) as [[[]|e|n] w']; cbn [fst snd] in *;
    (split; [exact Hfs|split; [exact Hin|split; [exact Hout|]]]);
    try (intros path Hp; discriminate Hp).
  intros path [= <-]. destruct (Hret eq_refl) as (text & Hcsv & Hat).
  split; [reflexivity|]. split; [reflexivity|].
  exists df0, df, text. auto.
Qed.

(** X4. Whatever the Writer's outcome, it leaves every path other than
    [expanduser(join(output_dir, filename))] as it was and touches neither
    standard input nor standard output.  When it returns, it returns that
    path, the file name ends with ".csv", and the path holds the text
    polars produced, in place of whatever was there before. *)
Theorem writer_touches_only_its_target (P : Polars) (data : list value)
    (filename output_dir : str) (w : world) :
  (forall q : str,
      q <> expanduser (os_environ w) (join output_dir filename) ->
      fs (snd (save_dataframe_to_csv data filename output_dir w)) !! q
      = fs w !! q)
  /\ stdin (snd (save_dataframe_to_csv data filename output_dir w)) = stdin w
  /\ stdout (snd (save_dataframe_to_csv data filename output_dir w)) = stdout w
  /\ (forall path : str,
        fst (save_dataframe_to_csv data filename output_dir w) = Ret path ->
        path = expanduser (os_environ w) (join output_dir filename)
        /\ endswith filename (lit ".csv") = true
        /\ exists df0 df text,
             pl_DataFrame data = inr df0
             /\ select_all_shrink_dtype df0 = inr df
             /\ csv_of df = CsvOk text
             /\ fs (snd (save_dataframe_to_csv data filename output_dir w))
                  !! path = Some (File text)).
Proof. apply save_dataframe_to_csv_frame. Qed.

(** X5. For a file name that ends with ".csv": when [expanduser] raises
    (line 40), or it returns and polars cannot build the frame or narrow
    its columns (line 43), or all that succeeds and the system refuses to
    create the file (line 44), the Writer raises that exception and the
    world, the target path included, is exactly as before: the path and
    the frame are built before anything is written. *)
Theorem writer_fails_before_writing (P : Polars) (data : list value)
    (filename output_dir : str) (w : world) (e : exn) :
  endswith filename (lit ".csv") = true ->
  (expanduser_error (os_environ w) (join output_dir filename) = Some e
   \/ (expanduser_error (os_environ w) (join output_dir filename) = None
       /\ (pl_DataFrame data = inl e
           \/ exists df0,
                pl_DataFrame data = inr df0
                /\ (select_all_shrink_dtype df0 = inl e
                    \/ exists df,
                         select_all_shrink_dtype df0 = inr df
                         /\ fs_refuses w
                              (expanduser (os_environ w)
                                 (join output_dir filename))
                            = Some e)))) ->
  save_dataframe_to_csv data filename output_dir w = (Raise e, w).
Proof.
  intros Hext H. rewrite save_dataframe_to_csv_eq, Hext, build_and_write_eq.
  destruct H as [-> | (-> & [-> | (df0 & -> & [-> | (df & -> & Href)])])];
    try reflexivity.
  unfold write_csv, output_path_of. rewrite Href. reflexivity.
Qed.

Lemma writer_fails_before_writing_witness :
  @save_dataframe_to_csv Sample.pl [Sample.record_a] (lit "out.csv")
    [126; 97; 0; 98]%N Sample.w_one
  = (Raise (mkExn ValueError (lit "embedded null byte")), Sample.w_one).
Proof.
  apply (writer_fails_before_writing Sample.pl [Sample.record_a]
           (lit "out.csv") [126; 97; 0; 98]%N Sample.w_one).
  - reflexivity.
  - left. vm_compute. reflexivity.
Defined.

(** ** Where the file goes *)

Lemma join_ends_with_name (a b : str) : exists pre, join a b = pre ++ b.
Proof.
  unfold join. destruct (startswith b [sep]); [exists []; reflexivity|].
  destruct (bool_decide (a = []) || endswith a [sep]).
  - exists a. reflexivity.
  - exists (a ++ [sep]). now rewrite <- app_assoc.
Qed.

(** With no home directory to be found the default target keeps its
    tilde. *)
Lemma expanduser_default_unknown (env : os_env) (b : str) :
  current_home env = None ->
  expanduser env (lit "~/Documents/" ++ b) = lit "~/Documents/" ++ b.
Proof.
  intros Hh. unfold expanduser. norm_lit. cbn [app].
  rewrite startswith_cons_singleton.
  change (bool_decide (126%N = tilde)) with true.
  cbn [negb find_from fmap option_fmap option_map].
  change (47 =? sep)%N with true.
  cbn [fmap option_fmap option_map Nat.eqb drop].
  rewrite Hh. reflexivity.
Qed.

Lemma default_output_path_eq (env : os_env) (filename : str) :
  isabs filename = false ->
  output_path_of env default_output_dir filename
  = match current_home env with
    | Some h => rstrip_by (N.eqb sep) h ++ lit "/Documents/" ++ filename
    | None => lit "~/Documents/" ++ filename
    end.
Proof.
  intros Hrel. unfold output_path_of, default_output_dir.
  rewrite (join_default_relative _ Hrel).
  destruct (current_home env) as [h|] eqn:Hh.
  - apply (expanduser_default _ _ _ Hh).
  - apply (expanduser_default_unknown _ _ Hh).
Qed.

(** X6. A file name that is an absolute path replaces the output
    directory: the target is the file name itself, whatever the directory
    and the home directory are, and that is the path the Writer returns. *)
Theorem absolute_filename_replaces_directory (P : Polars)
    (data : list value) (filename output_dir : str) (w : world) :
  isabs filename = true ->
  expanduser (os_environ w) (join output_dir filename) = filename
  /\ (forall path : str,
        fst (save_dataframe_to_csv data filename output_dir w) = Ret path ->
        path = filename).
Proof.
  intros Habs.
  assert (E : expanduser (os_environ w) (join output_dir filename) = filename).
  { rewrite (join_absolute _ _ Habs). apply (expanduser_isabs _ _ Habs). }
  split; [exact E|]. intros path Hret. rewrite <- E.
  destruct (save_dataframe_to_csv data filename output_dir w) as [o w'] eqn:Hs.
  cbn [fst] in Hret. subst o.
  apply (save_returns_output_path P data filename output_dir w w' path Hs).
Qed.

Lemma absolute_filename_replaces_directory_witness :
  expanduser (os_environ Sample.w_one)
    (join default_output_dir (lit "/tmp/x.csv")) = lit "/tmp/x.csv"
  /\ (forall path : str,
        fst (@save_dataframe_to_csv Sample.pl [Sample.record_a]
               (lit "/tmp/x.csv") default_output_dir Sample.w_one) = Ret path ->
        path = lit "/tmp/x.csv").
Proof.
  apply (absolute_filename_replaces_directory Sample.pl [Sample.record_a]
           (lit "/tmp/x.csv") default_output_dir Sample.w_one).
  reflexivity.
Defined.

(** X7. For a relative file name and the default directory, the target is
    the home directory of the current user without its trailing
    separators, then "/Documents/", then the file name; when no home
    directory is known the path is left as "~/Documents/<name>", tilde
    included. *)
Theorem default_target_path (env : os_env) (filename : str) :
  isabs filename = false ->
  expanduser env (join (lit "~/Documents") filename)
  = match current_home env with
    | Some h => rstrip_by (N.eqb sep) h ++ lit "/Documents/" ++ filename
    | None => lit "~/Documents/" ++ filename
    end.
Proof. apply default_output_path_eq. Qed.

Lemma default_target_path_witness :
  expanduser Sample.env_u (join (lit "~/Documents") (lit "out.csv"))
  = match current_home Sample.env_u with
    | Some h => rstrip_by (N.eqb sep) h ++ lit "/Documents/" ++ lit "out.csv"
    | None => lit "~/Documents/" ++ lit "out.csv"
    end.
Proof.
  apply (default_target_path Sample.env_u (lit "out.csv")). reflexivity.
Defined.

(** X8. When the output directory is the default, or is not empty and
    does not start with a tilde, the target path ends with the file name
    as given; so it ends with ".csv" whenever the file name does. *)
Theorem target_ends_with_filename (env : os_env)
    (output_dir filename : str) :
  (output_dir = lit "~/Documents"
   \/ exists c t, output_dir = c :: t /\ c <> tilde) ->
  (exists pre, expanduser env (join output_dir filename) = pre ++ filename)
  /\ (endswith filename (lit ".csv") = true ->
      endswith (expanduser env (join output_dir filename)) (lit ".csv")
      = true).
Proof.
  intros Hdir.
  assert (H : exists pre,
             expanduser env (join output_dir filename) = pre ++ filename).
  { destruct (isabs filename) eqn:Hf.
    - exists []. rewrite (join_absolute _ _ Hf). apply (expanduser_isabs _ _ Hf).
    - destruct Hdir as [-> | (c & t & -> & Hc)].
      + pose proof (default_output_path_eq env filename Hf) as E.
        unfold output_path_of, default_output_dir in E. rewrite E.
        destruct (current_home env) as [h|].
        * exists (rstrip_by (N.eqb sep) h ++ lit "/Documents/").
          now rewrite <- app_assoc.
        * eauto.
      + unfold join. unfold isabs in Hf. rewrite Hf.
        destruct (bool_decide (c :: t = []) || endswith (c :: t) [sep]).
        * cbn [app]. rewrite (expanduser_no_tilde _ _ _ Hc).
          exists (c :: t). reflexivity.
        * cbn [app]. rewrite (expanduser_no_tilde _ _ _ Hc).
          exists ((c :: t) ++ [sep]). now rewrite <- app_assoc. }
  split; [exact H|].
  intros [stem ->]%endswith_true_iff. destruct H as [pre ->].
  apply endswith_true_iff. exists (pre ++ stem). now rewrite <- app_assoc.
Qed.

Lemma target_ends_with_filename_witness :
  (exists pre,
      expanduser Sample.env_u (join (lit "~/Documents") (lit "out.csv"))
      = pre ++ lit "out.csv")
  /\ (endswith (lit "out.csv") (lit ".csv") = true ->
      endswith
        (expanduser Sample.env_u (join (lit "~/Documents") (lit "out.csv")))
        (lit ".csv") = true).
Proof.
  apply (target_ends_with_filename Sample.env_u (lit "~/Documents")
           (lit "out.csv")).
  left. reflexivity.
Defined.

(** ** At the prompt *)

(** X9. When standard input is at its end, the prompt is shown, [input]
    raises [EOFError], and the [except] branch prints "An error occurred:
    EOF when reading a line"; nothing is written and the run ends
    normally. *)
Theorem end_of_input_at_the_prompt (P : Polars) (combined : list value)
    (w : world) :
  stdin w = [] ->
  try_except (prompt_and_save combined) report w
  = (Ret tt,
     with_stdout w
       (stdout w
        ++ [lit "Enter the filename (e.g. 'data.csv'): ";
            line (lit "An error occurred: EOF when reading a line")])).
Proof.
  intros Hin. unfold try_except, prompt_and_save, bind, input. rewrite Hin.
  rewrite report_eq. cbn [stdout with_stdout exc_msg].
  rewrite <- app_assoc. reflexivity.
Qed.

Lemma end_of_input_at_the_prompt_witness :
  try_except (@prompt_and_save Sample.pl [Sample.record_a]) report
    Sample.w_no_args
  = (Ret tt,
     with_stdout Sample.w_no_args
       (stdout Sample.w_no_args
        ++ [lit "Enter the filename (e.g. 'data.csv'): ";
            line (lit "An error occurred: EOF when reading a line")])).
Proof.
  apply (end_of_input_at_the_prompt Sample.pl [Sample.record_a]
           Sample.w_no_args).
  reflexivity.
Defined.

(** X10. The extension is checked on the stripped line: when what remains
    of the typed line is not empty and does not end with ".csv", the
    [except] branch prints "An error occurred: Filename must have a .csv
    extension." and the file system is unchanged. *)
Theorem typed_name_without_csv_is_rejected (P : Polars)
    (combined : list value) (w : world) (typed : str) (rest : list str) :
  stdin w = typed :: rest ->
  strip typed <> [] ->
  endswith (strip typed) (lit ".csv") = false ->
  try_except (prompt_and_save combined) report w
  = (Ret tt,
     with_stdin
       (with_stdout w
          (stdout w
           ++ [lit "Enter the filename (e.g. 'data.csv'): ";
               line (lit "An error occurred: Filename must have a .csv extension.")]))
       rest)
  /\ fs (snd (try_except (prompt_and_save combined) report w)) = fs w.
Proof.
  intros Hin Hne Hext.
  assert (E : try_except (prompt_and_save combined) report w
              = (Ret tt,
                 with_stdin
                   (with_stdout w
                      (stdout w
                       ++ [lit "Enter the filename (e.g. 'data.csv'): ";
                           line (lit "An error occurred: Filename must have a .csv extension.")]))
                   rest)).
  { unfold try_except, prompt_and_save. unfold bind at 1. unfold input.
    rewrite Hin. destruct (strip typed) as [|c t] eqn:Hs; [congruence|].
    unfold bind. rewrite save_dataframe_to_csv_eq, Hext, report_eq.
    cbn [stdout with_stdin with_stdout exc_msg].
    rewrite <- app_assoc. reflexivity. }
  split; [exact E|]. rewrite E. reflexivity.
Qed.

Lemma typed_name_without_csv_is_rejected_witness :
  try_except (@prompt_and_save Sample.pl [Sample.record_a]) report
    (with_stdin Sample.w_one [lit "  notes.txt "; lit "next"])
  = (Ret tt,
     with_stdin
       (with_stdout (with_stdin Sample.w_one [lit "  notes.txt "; lit "next"])
          (stdout (with_stdin Sample.w_one [lit "  notes.txt "; lit "next"])
           ++ [lit "Enter the filename (e.g. 'data.csv'): ";
               line (lit "An error occurred: Filename must have a .csv extension.")]))
       [lit "next"])
  /\ fs (snd (try_except (@prompt_and_save Sample.pl [Sample.record_a]) report
                (with_stdin Sample.w_one [lit "  notes.txt "; lit "next"])))
     = fs (with_stdin Sample.w_one [lit "  notes.txt "; lit "next"]).
Proof.
  apply (typed_name_without_csv_is_rejected Sample.pl [Sample.record_a]
           (with_stdin Sample.w_one [lit "  notes.txt "; lit "next"])
           (lit "  notes.txt ") [lit "next"]).
  - reflexivity.
  - vm_compute. discriminate.
  - vm_compute. reflexivity.
Defined.

(** X11. The success message vouches for the file: whenever lines 69-76
    end normally, one line was read, its stripped text ends with ".csv",
    the file at [expanduser(join("~/Documents", <stripped text>))] holds
    the text polars produced for the accumulated records, and the output
    is the prompt followed by "DataFrame successfully saved to: " and that
    path. *)
Theorem success_message_names_the_written_file (P : Polars)
    (combined : list value) (w w' : world) (typed : str) (rest : list str) :
  stdin w = typed :: rest ->
  prompt_and_save combined w = (Ret tt, w') ->
  stdin w' = rest
  /\ stdout w'
     = stdout w
       ++ [lit "Enter the filename (e.g. 'data.csv'): ";
           line (lit "DataFrame successfully saved to: "
                 ++ expanduser (os_environ w)
                      (join (lit "~/Documents") (strip typed)))]
  /\ endswith (strip typed) (lit ".csv") = true
  /\ (exists df0 df text,
        pl_DataFrame combined = inr df0
        /\ select_all_shrink_dtype df0 = inr df
        /\ csv_of df = CsvOk text
        /\ fs w' !! expanduser (os_environ w)
                      (join (lit "~/Documents") (strip typed))
           = Some (File text))
  /\ (forall q : str,
        q <> expanduser (os_environ w) (join (lit "~/Documents") (strip typed)) ->
        fs w' !! q = fs w !! q).
Proof.
  intros Hin Hrun.
  unfold prompt_and_save in Hrun. unfold bind at 1 in Hrun.
  unfold input in Hrun. rewrite Hin in Hrun.
  destruct (strip typed) as [|c t] eqn:Hs; [discriminate|].
  set (w1 := with_stdin (with_stdout w _) rest) in Hrun.
  destruct (save_dataframe_to_csv_frame P combined (c :: t)
              default_output_dir w1) as (Hfs & Hi & Ho & Hret).
  unfold bind in Hrun.
  destruct (save_dataframe_to_csv combined (c :: t) default_output_dir w1)
    as [[path|e|n] w2]; try discriminate.
  cbn [fst snd] in *. destruct (Hret path eq_refl) as (-> & Hext & Hfile).
  unfold print in Hrun. injection Hrun as <-.
  cbn [stdin stdout fs with_stdout]. rewrite Hi, Ho.
  subst w1. cbn [stdin stdout fs os_environ with_stdin with_stdout] in *.
  split; [reflexivity|]. split; [now rewrite <- app_assoc|].
  split; [exact Hext|]. split; [exact Hfile|exact Hfs].
Qed.

Lemma success_message_names_the_written_file_witness :
  stdin (snd (@prompt_and_save Sample.pl [Sample.record_a; Sample.record_b]
                (with_stdin Sample.w_one [lit " out.csv "; lit "next"])))
  = [lit "next"]
  /\ stdout (snd (@prompt_and_save Sample.pl [Sample.record_a; Sample.record_b]
                    (with_stdin Sample.w_one [lit " out.csv "; lit "next"])))
     = stdout (with_stdin Sample.w_one [lit " out.csv "; lit "next"])
       ++ [lit "Enter the filename (e.g. 'data.csv'): ";
           line (lit "DataFrame successfully saved to: "
                 ++ expanduser
                      (os_environ
                         (with_stdin Sample.w_one [lit " out.csv "; lit "next"]))
                      (join (lit "~/Documents") (strip (lit " out.csv "))))]
  /\ endswith (strip (lit " out.csv ")) (lit ".csv") = true
  /\ (exists df0 df text,
        @pl_DataFrame Sample.pl [Sample.record_a; Sample.record_b] = inr df0
        /\ @select_all_shrink_dtype Sample.pl df0 = inr df
        /\ @csv_of Sample.pl df = CsvOk text
        /\ fs (snd (@prompt_and_save Sample.pl
                      [Sample.record_a; Sample.record_b]
                      (with_stdin Sample.w_one [lit " out.csv "; lit "next"])))
             !! expanduser
                  (os_environ
                     (with_stdin Sample.w_one [lit " out.csv "; lit "next"]))
                  (join (lit "~/Documents") (strip (lit " out.csv ")))
           = Some (File text))
  /\ (forall q : str,
        q <> expanduser
               (os_environ
                  (with_stdin Sample.w_one [lit " out.csv "; lit "next"]))
               (join (lit "~/Documents") (strip (lit " out.csv "))) ->
        fs (snd (@prompt_and_save Sample.pl [Sample.record_a; Sample.record_b]
                   (with_stdin Sample.w_one [lit " out.csv "; lit "next"])))
          !! q
        = fs (with_stdin Sample.w_one [lit " out.csv "; lit "next"]) !! q).
Proof.
  apply (success_message_names_the_written_file Sample.pl
           [Sample.record_a; Sample.record_b]
           (with_stdin Sample.w_one [lit " out.csv "; lit "next"])
           (snd (@prompt_and_save Sample.pl [Sample.record_a; Sample.record_b]
                   (with_stdin Sample.w_one [lit " out.csv "; lit "next"])))
           (lit " out.csv ") [lit "next"]).
  - reflexivity.
  - vm_compute. reflexivity.
Defined.

(** ** Narrowing before serialisation *)

Section ShrinkFacts.

Import Shrink.

Lemma foldr_min_spec (x : Z) (t : list Z) :
  In (foldr Z.min x t) (x :: t) /\ forall v, In v (x :: t) -> foldr Z.min x t <= v.
Proof.
  induction t as [|y t [Hin Hle]]; cbn [foldr].
  - split; [left; reflexivity|]. intros v [<- | []]. lia.
  - split.
    + destruct (Z.min_spec y (foldr Z.min x t)) as [[_ ->] | [_ ->]].
      * right. left. reflexivity.
      * destruct Hin as [H | H]; [left; exact H|right; right; exact H].
    + intros v [<- | [<- | H]].
      * specialize (Hle x (or_introl eq_refl)). lia.
      * lia.
      * specialize (Hle v (or_intror H)). lia.
Qed.

Lemma foldr_max_spec (x : Z) (t : list Z) :
  In (foldr Z.max x t) (x :: t) /\ forall v, In v (x :: t) -> v <= foldr Z.max x t.
Proof.
  induction t as [|y t [Hin Hle]]; cbn [foldr].
  - split; [left; reflexivity|]. intros v [<- | []]. lia.
  - split.
    + destruct (Z.max_spec y (foldr Z.max x t)) as [[_ ->] | [_ ->]].
      * destruct Hin as [H | H]; [left; exact H|right; right; exact H].
      * right. left. reflexivity.
    + intros v [<- | [<- | H]].
      * specialize (Hle x (or_introl eq_refl)). lia.
      * lia.
      * specialize (Hle v (or_intror H)). lia.
Qed.

(** The extrema bound every value and, when there is one, are values. *)
Lemma extrema_spec (vals : list (option Z)) :
  (forall v, In v (present vals) -> col_min vals <= v <= col_max vals)
  /\ (present vals <> [] ->
      In (col_min vals) (present vals) /\ In (col_max vals) (present vals))
  /\ (present vals = [] -> col_min vals = 0 /\ col_max vals = 0).
Proof.
  unfold col_min, col_max. destruct (present vals) as [|x t].
  - split; [intros v []|]. split; [congruence|auto].
  - destruct (foldr_min_spec x t) as [Hmi Hml].
    destruct (foldr_max_spec x t) as [Hxi Hxl].
    split; [|split; [auto|discriminate]].
    intros v Hv. specialize (Hml v Hv). specialize (Hxl v Hv). lia.
Qed.

Lemma holds_int_iff (sg : bool) (n : width) (v : Z) :
  holds (int_type sg n) v = true
  <-> (if sg then int_min n else 0) <= v
      <= (if sg then int_max n else uint_max n).
Proof.
  destruct sg; cbn [int_type holds];
    rewrite andb_true_iff, !Z.leb_le; reflexivity.
Qed.

(** What narrowing does to a well-typed integer column. *)
Lemma narrow_integer_column (sg : bool) (wd : width) (vals : list (option Z)) :
  well_typed (IntCol sg wd vals) ->
  exists n : width,
    shrunk_dtype (IntCol sg wd vals) = int_type sg n
    /\ bits n <= bits wd
    /\ (forall v, In v (present vals) -> holds (int_type sg n) v = true)
    /\ (forall m : width,
          bits m < bits n ->
          exists v, In v (present vals) /\ holds (int_type sg m) v = false).
Proof.
  intros Hwt.
  destruct (extrema_spec vals) as (Hbound & Hmem & Hnone).
  assert (Hself : forall v, In v (present vals) ->
                   holds (int_type sg wd) v = true).
  { intros v Hv. specialize (Hwt v Hv). destruct sg; exact Hwt. }
  assert (Hext : holds (int_type sg wd) (col_min vals) = true
                 /\ holds (int_type sg wd) (col_max vals) = true
                 \/ present vals = []).
  { destruct (present vals) as [|x t] eqn:E; [right; reflexivity|left].
    destruct Hmem as [Hmi Hma]; [discriminate|]. auto. }
  set (lo := col_min vals) in *. set (hi := col_max vals) in *.
  assert (Hcase : forall n : width,
             (if sg then holds (Int n) lo && holds (Int n) hi
              else hi <=? uint_max n) = true ->
             forall v, In v (present vals) -> holds (int_type sg n) v = true).
  { intros n Hn v Hv. specialize (Hbound v Hv). specialize (Hself v Hv).
    apply holds_int_iff. apply holds_int_iff in Hself.
    destruct sg.
    - cbn [holds] in Hn. rewrite !andb_true_iff, !Z.leb_le in Hn. lia.
    - rewrite Z.leb_le in Hn. lia. }
  assert (Hfail : forall n : width,
             (if sg then holds (Int n) lo && holds (Int n) hi
              else hi <=? uint_max n) = false ->
             exists v, In v (present vals) /\ holds (int_type sg n) v = false).
  { intros n Hn. destruct (present vals) as [|x t] eqn:E.
    - destruct (Hnone eq_refl) as [Hlo Hhi]. exfalso.
      subst lo hi. rewrite Hlo, Hhi in Hn. destruct sg, n; discriminate.
    - destruct Hmem as [Hmi Hma]; [discriminate|].
      destruct sg.
      + apply andb_false_iff in Hn as [Hn | Hn]; eauto.
      + exists hi. split; [exact Hma|]. cbn [int_type holds].
        rewrite Hn. apply andb_false_r. }
  assert (Hwide : forall n : width,
             (if sg then holds (Int n) lo && holds (Int n) hi
              else hi <=? uint_max n) = false ->
             bits n < bits wd).
  { intros n Hn. destruct Hext as [[Hlo Hhi] | Hempty].
    - apply holds_int_iff in Hlo, Hhi.
      destruct sg.
      + cbn [holds] in Hn. apply andb_false_iff in Hn.
        rewrite !andb_false_iff, !Z.leb_gt in Hn.
        destruct n, wd; unfold int_min, int_max, uint_max, bits in *; lia.
      + rewrite Z.leb_gt in Hn. destruct n, wd; unfold int_min, int_max, uint_max, bits in *; lia.
    - destruct (Hnone Hempty) as [Hlo Hhi]. subst lo hi.
      rewrite Hlo, Hhi in Hn. destruct sg, n; discriminate. }
  pose proof (Hcase W8) as C8. pose proof (Hcase W16) as C16.
  pose proof (Hcase W32) as C32.
  pose proof (Hfail W8) as F8. pose proof (Hfail W16) as F16.
  pose proof (Hfail W32) as F32.
  pose proof (Hwide W8) as D8. pose proof (Hwide W16) as D16.
  pose proof (Hwide W32) as D32.
  assert (Hsh : shrunk_dtype (IntCol sg wd vals)
                = int_type sg
                    (if (if sg then holds (Int W8) lo && holds (Int W8) hi
                         else hi <=? uint_max W8) then W8
                     else if (if sg then holds (Int W16) lo && holds (Int W16) hi
                              else hi <=? uint_max W16) then W16
                     else if (if sg then holds (Int W32) lo && holds (Int W32) hi
                              else hi <=? uint_max W32) then W32
                     else wd)).
  { destruct sg; reflexivity. }
  rewrite Hsh. clear Hsh.
  destruct (if sg then holds (Int W8) lo && holds (Int W8) hi
            else hi <=? uint_max W8) eqn:E8.
  { exists W8. repeat split; auto.
    - destruct wd; unfold bits; lia.
    - intros m Hm. destruct m; unfold bits in Hm; lia. }
  destruct (if sg then holds (Int W16) lo && holds (Int W16) hi
            else hi <=? uint_max W16) eqn:E16.
  { exists W16. repeat split; auto.
    - specialize (D8 eq_refl). destruct wd; unfold int_min, int_max, uint_max, bits in *; lia.
    - intros m Hm. destruct m; unfold bits in Hm; try lia. auto. }
  destruct (if sg then holds (Int W32) lo && holds (Int W32) hi
            else hi <=? uint_max W32) eqn:E32.
  { exists W32. repeat split; auto.
    - specialize (D16 eq_refl). destruct wd; unfold int_min, int_max, uint_max, bits in *; lia.
    - intros m Hm. destruct m; unfold bits in Hm; try lia; auto. }
  exists wd. repeat split; auto.
  - lia.
  - intros m Hm. specialize (D32 eq_refl).
    assert (wd = W64) as -> by (destruct wd; unfold bits in *; try lia; reflexivity).
    destruct m; unfold bits in Hm; try lia; auto.
Qed.

End ShrinkFacts.

(** The columns of the example in the polars documentation; its float
    column [0.1, 1.32, 0.12] is given by the 64-bit floats nearest to
    those numbers. *)
Example shrink_documented_example :
  Shrink.shrunk_dtype (Shrink.IntCol true Shrink.W64 [Some 1; Some 2; Some 3])
  = Shrink.Int Shrink.W8
  /\ Shrink.shrunk_dtype
       (Shrink.IntCol true Shrink.W64 [Some 1; Some 2; Some (Z.shiftl 2 32)])
     = Shrink.Int Shrink.W64
  /\ Shrink.shrunk_dtype
       (Shrink.IntCol true Shrink.W64 [Some (-1); Some 2; Some (Z.shiftl 1 30)])
     = Shrink.Int Shrink.W32
  /\ Shrink.shrunk_dtype
       (Shrink.IntCol true Shrink.W64 [Some (-112); Some 2; Some 112])
     = Shrink.Int Shrink.W8
  /\ Shrink.shrunk_dtype
       (Shrink.IntCol true Shrink.W64 [Some (-112); Some 2; Some 129])
     = Shrink.Int Shrink.W16
  /\ Shrink.shrunk_dtype (Shrink.OtherCol Shrink.Utf8) = Shrink.Utf8
  /\ Shrink.shrunk_dtype
       (Shrink.FloatCol true
          [Some (3602879701896397, -55); Some (5944751508129055, -52);
           Some (1080863910568919, -53)])
     = Shrink.Float32
  /\ Shrink.shrunk_dtype (Shrink.OtherCol Shrink.Boolean) = Shrink.Boolean.
Proof. vm_compute. repeat split. Qed.

(** C9, as the code and polars have it.  The Writer serialises the frame
    that [select(pl.all().shrink_dtype())] returned: whenever it returns,
    the text at the target is the CSV text of the narrowed frame.  The
    narrowing casts an integer column to an integer type of the same
    signedness that is no wider than before, holds every value of the
    column, and is the narrowest such type; it casts a float column to
    32-bit floats whatever its values; it leaves the other columns as they
    are. *)
Theorem writer_narrows_before_serialising (P : Polars) (data : list value)
    (filename output_dir : str) (w : world) (c : Shrink.column) :
  Shrink.well_typed c ->
  (forall path : str,
      fst (save_dataframe_to_csv data filename output_dir w) = Ret path ->
      exists df0 df text,
        pl_DataFrame data = inr df0
        /\ select_all_shrink_dtype df0 = inr df
        /\ csv_of df = CsvOk text
        /\ fs (snd (save_dataframe_to_csv data filename output_dir w)) !! path
           = Some (File text))
  /\ (forall (sg : bool) (wd : Shrink.width) (vals : list (option Z)),
        c = Shrink.IntCol sg wd vals ->
        exists n : Shrink.width,
          Shrink.shrunk_dtype c = Shrink.int_type sg n
          /\ Shrink.bits n <= Shrink.bits wd
          /\ (forall v, In v (Shrink.present vals) ->
                        Shrink.holds (Shrink.int_type sg n) v = true)
          /\ (forall m : Shrink.width,
                Shrink.bits m < Shrink.bits n ->
                exists v, In v (Shrink.present vals)
                          /\ Shrink.holds (Shrink.int_type sg m) v = false))
  /\ (forall (double : bool) (vals : list (option Shrink.float_value)),
        c = Shrink.FloatCol double vals ->
        Shrink.shrunk_dtype c = Shrink.Float32)
  /\ (forall t : Shrink.dtype,
        c = Shrink.OtherCol t -> Shrink.shrunk_dtype c = t).
Proof.
  intros Hwt. split; [|split; [|split]].
  - intros path Hret.
    destruct (save_dataframe_to_csv_frame P data filename output_dir w)
      as (_ & _ & _ & H).
    destruct (H path Hret) as (_ & _ & df0 & df & text & H1 & H2 & H3 & H4).
    exists df0, df, text. auto.
  - intros sg wd vals ->. apply (narrow_integer_column sg wd vals Hwt).
  - intros double vals ->. reflexivity.
  - intros t ->. reflexivity.
Qed.

Lemma writer_narrows_before_serialising_witness :
  (forall path : str,
      fst (@save_dataframe_to_csv Sample.pl [Sample.record_a; Sample.record_b]
             (lit "out.csv") default_output_dir Sample.w_example) = Ret path ->
      exists df0 df text,
        @pl_DataFrame Sample.pl [Sample.record_a; Sample.record_b] = inr df0
        /\ @select_all_shrink_dtype Sample.pl df0 = inr df
        /\ @csv_of Sample.pl df = CsvOk text
        /\ fs (snd (@save_dataframe_to_csv Sample.pl
                      [Sample.record_a; Sample.record_b] (lit "out.csv")
                      default_output_dir Sample.w_example)) !! path
           = Some (File text))
  /\ (forall (sg : bool) (wd : Shrink.width) (vals : list (option Z)),
        Shrink.IntCol true Shrink.W64 [Some (-112); None; Some 129]
        = Shrink.IntCol sg wd vals ->
        exists n : Shrink.width,
          Shrink.shrunk_dtype
            (Shrink.IntCol true Shrink.W64 [Some (-112); None; Some 129])
          = Shrink.int_type sg n
          /\ Shrink.bits n <= Shrink.bits wd
          /\ (forall v, In v (Shrink.present vals) ->
                        Shrink.holds (Shrink.int_type sg n) v = true)
          /\ (forall m : Shrink.width,
                Shrink.bits m < Shrink.bits n ->
                exists v, In v (Shrink.present vals)
                          /\ Shrink.holds (Shrink.int_type sg m) v = false))
  /\ (forall (double : bool) (vals : list (option Shrink.float_value)),
        Shrink.IntCol true Shrink.W64 [Some (-112); None; Some 129]
        = Shrink.FloatCol double vals ->
        Shrink.shrunk_dtype
          (Shrink.IntCol true Shrink.W64 [Some (-112); None; Some 129])
        = Shrink.Float32)
  /\ (forall t : Shrink.dtype,
        Shrink.IntCol true Shrink.W64 [Some (-112); None; Some 129]
        = Shrink.OtherCol t ->
        Shrink.shrunk_dtype
          (Shrink.IntCol true Shrink.W64 [Some (-112); None; Some 129])
        = t).
Proof.
  apply (writer_narrows_before_serialising Sample.pl
           [Sample.record_a; Sample.record_b] (lit "out.csv")
           default_output_dir Sample.w_example
           (Shrink.IntCol true Shrink.W64 [Some (-112); None; Some 129])).
  intros v [<- | [<- | []]]; reflexivity.
Defined.

(** C9 as stated fails.  The float column holding 16777217.0 (that is
    16777217 * 2^0, a 64-bit float) is cast to 32-bit floats, which do not
    hold that value (they hold 16777216.0): the narrowed type does not
    represent the column exactly.  Nor do they hold the 64-bit float
    nearest to 0.1, the first value of the float column that the
    documentation's example narrows.  And the integer column holding 200
    is cast to 16-bit signed integers although an 8-bit integer type holds
    200. *)
Lemma narrowing_is_not_always_exact :
  Shrink.dtype_of (Shrink.FloatCol true [Some (16777217, 0)]) = Shrink.Float64
  /\ Shrink.shrunk_dtype (Shrink.FloatCol true [Some (16777217, 0)])
     = Shrink.Float32
  /\ Shrink.exact_in_float32 (16777217, 0) = false
  /\ Shrink.exact_in_float32 (16777216, 0) = true
  /\ Shrink.exact_in_float32 (3602879701896397, -55) = false
  /\ Shrink.shrunk_dtype (Shrink.IntCol true Shrink.W64 [Some 200])
     = Shrink.Int Shrink.W16
  /\ Shrink.holds (Shrink.UInt Shrink.W8) 200 = true.
Proof. vm_compute. repeat split. Qed.
